(** * HyperDbg hypervisor driver: the IRP handlers of Driver.c

    A shallow embedding of the driver shell of [hprdbghv] (Driver.c):
    [DrvCreate], [DrvRead], [DrvWrite], [DrvClose], [DrvUnsupported] and
    [DrvDispatchIoControl], over the driver's global variables, together
    with models of the hypervisor core components (breakpoints, EPT hooks,
    event-hook registry) whose code lives in sibling files. *)

From Stdlib Require Import ZArith List Bool String Lia.
From stdpp Require Import base gmap list.
Import ListNotations.
Local Open Scope Z_scope.

(** ** Kernel data types used by Driver.c *)

(** NTSTATUS is a 32-bit code; the values are those of ntstatus.h, written
    as their unsigned bit patterns. *)
Definition NTSTATUS := Z.
Definition STATUS_SUCCESS : NTSTATUS := 0x00000000.
Definition STATUS_PENDING : NTSTATUS := 0x00000103.
Definition STATUS_UNSUCCESSFUL : NTSTATUS := 0xC0000001.
Definition STATUS_NOT_IMPLEMENTED : NTSTATUS := 0xC0000002.
Definition STATUS_INVALID_PARAMETER : NTSTATUS := 0xC000000D.
Definition STATUS_ACCESS_DENIED : NTSTATUS := 0xC0000022.

Inductive KPROCESSOR_MODE := KernelMode | UserMode.

Record LUID := { LowPart : Z; HighPart : Z }.
Definition SE_DEBUG_PRIVILEGE : Z := 20.

(** [LUID DebugPrivilege = {SE_DEBUG_PRIVILEGE, 0}] of [DrvCreate]. *)
Definition DebugPrivilege : LUID :=
  {| LowPart := SE_DEBUG_PRIVILEGE; HighPart := 0 |}.

(** The buffer of an IOCTL_REGISTER_EVENT request; only its [Type] field is
    read by Driver.c (the field is called [Type_] here). *)
Record REGISTER_NOTIFY_BUFFER := { Type_ : Z; hEvent : Z }.

Record IO_STACK_LOCATION := {
  IoControlCode : Z;
  InputBufferLength : Z
}.

Record IO_STATUS_BLOCK := { Status : NTSTATUS; Information : Z }.

(** [SystemBuffer = None] is the NULL pointer. *)
Record IRP := {
  RequestorMode : KPROCESSOR_MODE;
  IoStatus : IO_STATUS_BLOCK;
  SystemBuffer : option REGISTER_NOTIFY_BUFFER;
  CurrentStackLocation : IO_STACK_LOCATION
}.

(** [Irp->IoStatus.Status = st; Irp->IoStatus.Information = info]. *)
Definition set_IoStatus (Irp : IRP) (st : NTSTATUS) (info : Z) : IRP :=
  {| RequestorMode := RequestorMode Irp;
     IoStatus := {| Status := st; Information := info |};
     SystemBuffer := SystemBuffer Irp;
     CurrentStackLocation := CurrentStackLocation Irp |}.

(** ** C integer conversions *)

(** [int x = (ULONG) v]: the low 32 bits read as a signed value. *)
Definition to_int (v : Z) : Z := (v + 2 ^ 31) mod 2 ^ 32 - 2 ^ 31.
(** Conversion to the 64-bit [size_t]. *)
Definition to_size_t (v : Z) : Z := v mod 2 ^ 64.

(** ** Calls that leave the file

    Every call to a routine outside Driver.c is recorded, in program order,
    in a trace.  The calls into the hypervisor core also record what they
    were given or what they returned. *)
Inductive Event :=
| EvLogInfo (msg : string)
| EvLogInfoImmediate (msg : string)
| EvLogWarning (msg : string)
| EvLogError (msg : string)
| EvRtlZeroMemory (Length : Z)
| EvHvVmxInitialize (GuestState : list Z) (ret : bool)
| EvDebuggerInitialize (ret : bool)
| EvHvTerminateVmx
| EvPoolManagerCheckAndPerformAllocation
| EvIoGetCurrentIrpStackLocation
| EvLogRegisterIrpBasedNotification (ret : NTSTATUS)
| EvLogRegisterEventBasedNotification (ret : NTSTATUS)
| EvIoCompleteRequest (Irp : IRP).

Definition is_drain (e : Event) : bool :=
  match e with EvPoolManagerCheckAndPerformAllocation => true | _ => false end.
Definition is_HvVmxInitialize (e : Event) : bool :=
  match e with EvHvVmxInitialize _ _ => true | _ => false end.
Definition is_HvTerminateVmx (e : Event) : bool :=
  match e with EvHvTerminateVmx => true | _ => false end.
Definition is_RtlZeroMemory (e : Event) : bool :=
  match e with EvRtlZeroMemory _ => true | _ => false end.
Definition is_IoCompleteRequest (e : Event) : bool :=
  match e with EvIoCompleteRequest _ => true | _ => false end.

(** Number of events of a kind in a trace. *)
Definition calls (p : Event -> bool) (t : list Event) : nat :=
  length (List.filter p t).

(** ** Constants of headers that are not part of Driver.c *)
Record Constants := {
  sizeof_VIRTUAL_MACHINE_STATE : Z;
  SIZEOF_REGISTER_EVENT : Z;
  IRP_BASED : Z;
  EVENT_BASED : Z;
  IOCTL_REGISTER_EVENT : Z;
  IOCTL_RETURN_IRP_PENDING_PACKETS_AND_DISALLOW_IOCTL : Z;
  IOCTL_TERMINATE_VMX : Z
}.

(** The case labels of a C [switch] are pairwise distinct. *)
Definition ioctl_codes_distinct (K : Constants) : bool :=
  negb (IOCTL_REGISTER_EVENT K =? IOCTL_RETURN_IRP_PENDING_PACKETS_AND_DISALLOW_IOCTL K)
  && negb (IOCTL_REGISTER_EVENT K =? IOCTL_TERMINATE_VMX K)
  && negb (IOCTL_RETURN_IRP_PENDING_PACKETS_AND_DISALLOW_IOCTL K =? IOCTL_TERMINATE_VMX K).

(** ** Routines that are not part of Driver.c

    The kernel and the hypervisor core act on a state of their own
    ([World]) and on the guest-state array, which the core fills in.  The
    two flags [g_HandleInUse] and [g_AllowIOCTLFromUsermode] are written in
    Driver.c only, so these routines have no access to them. *)
Record Externals (World : Type) := {
  SeSinglePrivilegeCheck : LUID -> KPROCESSOR_MODE -> World -> bool;
  KeQueryActiveProcessorCount : World -> Z;
  HvVmxInitialize : list Z -> World -> bool * (list Z * World);
  DebuggerInitialize : list Z -> World -> bool * (list Z * World);
  HvTerminateVmx : list Z -> World -> list Z * World;
  PoolManagerCheckAndPerformAllocation : list Z -> World -> list Z * World;
  LogRegisterIrpBasedNotification : IRP -> World -> NTSTATUS * World;
  LogRegisterEventBasedNotification : IRP -> World -> NTSTATUS * World
}.
Arguments SeSinglePrivilegeCheck {World}.
Arguments KeQueryActiveProcessorCount {World}.
Arguments HvVmxInitialize {World}.
Arguments DebuggerInitialize {World}.
Arguments HvTerminateVmx {World}.
Arguments PoolManagerCheckAndPerformAllocation {World}.
Arguments LogRegisterIrpBasedNotification {World}.
Arguments LogRegisterEventBasedNotification {World}.

(** ** The driver's global state *)

(** [g_GuestState] is the byte array allocated by [DriverEntry]:
    [sizeof(VIRTUAL_MACHINE_STATE) * ProcessorCount] bytes. *)
Record DriverState (World : Type) := {
  g_HandleInUse : bool;
  g_AllowIOCTLFromUsermode : bool;
  g_GuestState : list Z;
  world : World
}.
Arguments g_HandleInUse {World}.
Arguments g_AllowIOCTLFromUsermode {World}.
Arguments g_GuestState {World}.
Arguments world {World}.
Arguments Build_DriverState {World}.

(** [RtlZeroMemory(p, len)] on a buffer: the first [len] bytes become 0.
    Writes past the end of the allocation are not modelled. *)
Definition RtlZeroMemory (buf : list Z) (len : Z) : list Z :=
  repeat 0 (Nat.min (Z.to_nat len) (length buf)) ++ skipn (Z.to_nat len) buf.

(** ** A state-and-trace monad for the handlers *)
Module DriverMonad.

Definition M (S A : Type) : Type := S -> A * S * list Event.

Definition ret {S A} (a : A) : M S A := fun s => (a, s, []).

Definition bind {S A B} (m : M S A) (k : A -> M S B) : M S B :=
  fun s =>
    let '(a, s1, t1) := m s in
    let '(b, s2, t2) := k a s1 in
    (b, s2, t1 ++ t2).

Definition get {S} : M S S := fun s => (s, s, []).
Definition emit {S} (e : Event) : M S unit := fun s => (tt, s, [e]).

End DriverMonad.
Import DriverMonad.

Declare Scope drv_scope.
Delimit Scope drv_scope with drv.
Notation "x <- m ;; k" := (bind m (fun x => k))
  (at level 60, m at next level, right associativity) : drv_scope.
Notation "m ;;; k" := (bind m (fun _ => k))
  (at level 60, right associativity) : drv_scope.
Local Open Scope drv_scope.

(** Result, final state and trace of a run. *)
Definition result {S A} (r : A * S * list Event) : A := fst (fst r).
Definition final {S A} (r : A * S * list Event) : S := snd (fst r).
Definition trace {S A} (r : A * S * list Event) : list Event := snd r.

(** ** The handlers of Driver.c *)
Section Driver.

Context {World : Type}.
Variable K : Constants.
Variable ext : Externals World.

Abbreviation State := (DriverState World).
Abbreviation Drv := (M (DriverState World)).

(** *** Writes to the globals *)
Definition set_g_HandleInUse (b : bool) : Drv unit :=
  fun s => (tt, Build_DriverState b (g_AllowIOCTLFromUsermode s)
                                  (g_GuestState s) (world s), []).

Definition set_g_AllowIOCTLFromUsermode (b : bool) : Drv unit :=
  fun s => (tt, Build_DriverState (g_HandleInUse s) b
                                  (g_GuestState s) (world s), []).

(** A hypervisor routine acting on the guest-state array and the world. *)
Definition set_hv (s : State) (gw : list Z * World) : State :=
  Build_DriverState (g_HandleInUse s) (g_AllowIOCTLFromUsermode s)
                    (fst gw) (snd gw).

Definition set_world (s : State) (w : World) : State :=
  Build_DriverState (g_HandleInUse s) (g_AllowIOCTLFromUsermode s)
                    (g_GuestState s) w.

(** *** Calls to the outside *)

(** The log macros are recorded by their message only.  What the logger
    reads on its own account (Driver.c says it uses the vmx-root state kept
    in the guest-state array) is not part of the record. *)
Definition LogInfo (msg : string) : Drv unit := emit (EvLogInfo msg).
Definition LogInfoImmediate (msg : string) : Drv unit :=
  emit (EvLogInfoImmediate msg).
Definition LogWarning (msg : string) : Drv unit := emit (EvLogWarning msg).
Definition LogError (msg : string) : Drv unit := emit (EvLogError msg).

Definition IoCompleteRequest (Irp : IRP) : Drv unit :=
  emit (EvIoCompleteRequest Irp).

Definition call_SeSinglePrivilegeCheck (l : LUID) (m : KPROCESSOR_MODE)
  : Drv bool :=
  fun s => (SeSinglePrivilegeCheck ext l m (world s), s, []).

Definition call_KeQueryActiveProcessorCount : Drv Z :=
  fun s => (KeQueryActiveProcessorCount ext (world s), s, []).

(** [RtlZeroMemory(g_GuestState, len)]. *)
Definition zero_g_GuestState (len : Z) : Drv unit :=
  fun s => (tt, set_hv s (RtlZeroMemory (g_GuestState s) len, world s),
            [EvRtlZeroMemory len]).

Definition call_HvVmxInitialize : Drv bool :=
  fun s =>
    let r := HvVmxInitialize ext (g_GuestState s) (world s) in
    (fst r, set_hv s (snd r), [EvHvVmxInitialize (g_GuestState s) (fst r)]).

Definition call_DebuggerInitialize : Drv bool :=
  fun s =>
    let r := DebuggerInitialize ext (g_GuestState s) (world s) in
    (fst r, set_hv s (snd r), [EvDebuggerInitialize (fst r)]).

Definition call_HvTerminateVmx : Drv unit :=
  fun s => (tt, set_hv s (HvTerminateVmx ext (g_GuestState s) (world s)),
            [EvHvTerminateVmx]).

Definition call_PoolManagerCheckAndPerformAllocation : Drv unit :=
  fun s =>
    (tt, set_hv s (PoolManagerCheckAndPerformAllocation ext (g_GuestState s)
                                                        (world s)),
     [EvPoolManagerCheckAndPerformAllocation]).

Definition IoGetCurrentIrpStackLocation (Irp : IRP) : Drv IO_STACK_LOCATION :=
  fun s => (CurrentStackLocation Irp, s, [EvIoGetCurrentIrpStackLocation]).

Definition call_LogRegisterIrpBasedNotification (Irp : IRP) : Drv NTSTATUS :=
  fun s =>
    let r := LogRegisterIrpBasedNotification ext Irp (world s) in
    (fst r, set_world s (snd r), [EvLogRegisterIrpBasedNotification (fst r)]).

Definition call_LogRegisterEventBasedNotification (Irp : IRP) : Drv NTSTATUS :=
  fun s =>
    let r := LogRegisterEventBasedNotification ext Irp (world s) in
    (fst r, set_world s (snd r), [EvLogRegisterEventBasedNotification (fst r)]).

(** The three statements that end every handler:
    set [IoStatus], call [IoCompleteRequest], return the status. *)
Definition complete (Irp : IRP) (st : NTSTATUS) : Drv NTSTATUS :=
  IoCompleteRequest (set_IoStatus Irp st 0) ;;;
  ret st.

(** *** IRP_MJ_CREATE *)
Definition DrvCreate (Irp : IRP) : Drv NTSTATUS :=
  priv <- call_SeSinglePrivilegeCheck DebugPrivilege (RequestorMode Irp) ;;
  if negb priv then
    complete Irp STATUS_ACCESS_DENIED
  else
    s <- get ;;
    if g_HandleInUse s then
      complete Irp STATUS_UNSUCCESSFUL
    else
      set_g_AllowIOCTLFromUsermode true ;;;
      LogInfo "Hyperdbg's hypervisor Started..." ;;;
      n <- call_KeQueryActiveProcessorCount ;;
      let ProcessorCount := to_int n in
      zero_g_GuestState
        (to_size_t (sizeof_VIRTUAL_MACHINE_STATE K * to_size_t ProcessorCount)) ;;;
      hv <- call_HvVmxInitialize ;;
      if hv then
        LogInfo "Hyperdbg's hypervisor loaded successfully :)" ;;;
        dbg <- call_DebuggerInitialize ;;
        if dbg then
          LogInfo "Hyperdbg's debugger loaded successfully" ;;;
          set_g_HandleInUse true ;;;
          complete Irp STATUS_SUCCESS
        else
          LogError "Hyperdbg's debugger was not loaded" ;;;
          complete Irp STATUS_UNSUCCESSFUL
      else
        LogError "Hyperdbg's hypervisor was not loaded :(" ;;;
        complete Irp STATUS_UNSUCCESSFUL.

(** *** IRP_MJ_READ, IRP_MJ_WRITE *)
Definition DrvRead (Irp : IRP) : Drv NTSTATUS :=
  LogWarning "Not implemented yet :(" ;;;
  complete Irp STATUS_SUCCESS.

Definition DrvWrite (Irp : IRP) : Drv NTSTATUS :=
  LogWarning "Not implemented yet :(" ;;;
  complete Irp STATUS_SUCCESS.

(** *** IRP_MJ_CLOSE *)
Definition DrvClose (Irp : IRP) : Drv NTSTATUS :=
  set_g_HandleInUse false ;;;
  complete Irp STATUS_SUCCESS.

(** *** Every other IRP_MJ_* *)
Definition DrvUnsupported (Irp : IRP) : Drv NTSTATUS :=
  LogWarning "This function is not supported :(" ;;;
  complete Irp STATUS_SUCCESS.

(** *** IRP_MJ_DEVICE_CONTROL *)

(** The inner [switch (RegisterEvent->Type)]. *)
Definition register_event (Irp : IRP) (RegisterEvent : REGISTER_NOTIFY_BUFFER)
  : Drv NTSTATUS :=
  if Type_ RegisterEvent =? IRP_BASED K then
    call_LogRegisterIrpBasedNotification Irp
  else if Type_ RegisterEvent =? EVENT_BASED K then
    call_LogRegisterEventBasedNotification Irp
  else
    LogError "Unknow notification type from user-mode" ;;;
    ret STATUS_INVALID_PARAMETER.

(** The outer [switch] on the control code, the case labels tried in the
    order of the source.  The parameter check of IOCTL_REGISTER_EVENT is
    [InputBufferLength < SIZEOF_REGISTER_EVENT || SystemBuffer == NULL],
    evaluated left to right. *)
Definition ioctl_switch (Irp : IRP) (IrpStack : IO_STACK_LOCATION)
  : Drv NTSTATUS :=
  let code := IoControlCode IrpStack in
  if code =? IOCTL_REGISTER_EVENT K then
    if InputBufferLength IrpStack <? SIZEOF_REGISTER_EVENT K then
      LogError "Invalid parameter to IOCTL Dispatcher." ;;;
      ret STATUS_INVALID_PARAMETER
    else
      match SystemBuffer Irp with
      | None =>
          LogError "Invalid parameter to IOCTL Dispatcher." ;;;
          ret STATUS_INVALID_PARAMETER
      | Some RegisterEvent => register_event Irp RegisterEvent
      end
  else if code =? IOCTL_RETURN_IRP_PENDING_PACKETS_AND_DISALLOW_IOCTL K then
    set_g_AllowIOCTLFromUsermode false ;;;
    LogInfoImmediate
      "An immediate message recieved, we no longer recieve IRPs from user-mode " ;;;
    ret STATUS_SUCCESS
  else if code =? IOCTL_TERMINATE_VMX K then
    call_HvTerminateVmx ;;;
    ret STATUS_SUCCESS
  else
    LogError "Unknow IOCTL" ;;;
    ret STATUS_NOT_IMPLEMENTED.

Definition DrvDispatchIoControl (Irp : IRP) : Drv NTSTATUS :=
  s <- get ;;
  st <- (if g_AllowIOCTLFromUsermode s then
           call_PoolManagerCheckAndPerformAllocation ;;;
           IrpStack <- IoGetCurrentIrpStackLocation Irp ;;
           ioctl_switch Irp IrpStack
         else
           ret STATUS_SUCCESS) ;;
  (if negb (st =? STATUS_PENDING) then
     IoCompleteRequest (set_IoStatus Irp st 0)
   else ret tt) ;;;
  ret st.

(** *** The major-function table set up by [DriverEntry] *)
Inductive MajorFunction :=
| IRP_MJ_CREATE | IRP_MJ_CLOSE | IRP_MJ_READ | IRP_MJ_WRITE
| IRP_MJ_DEVICE_CONTROL | IRP_MJ_other.

Definition handler (mj : MajorFunction) : IRP -> Drv NTSTATUS :=
  match mj with
  | IRP_MJ_CLOSE => DrvClose
  | IRP_MJ_CREATE => DrvCreate
  | IRP_MJ_READ => DrvRead
  | IRP_MJ_WRITE => DrvWrite
  | IRP_MJ_DEVICE_CONTROL => DrvDispatchIoControl
  | IRP_MJ_other => DrvUnsupported
  end.

(** *** Sequences of requests *)

(** What one handler call did: the request, the state before, the status
    returned, the state after and the calls made. *)
Record Outcome := {
  out_mj : MajorFunction;
  out_irp : IRP;
  out_before : State;
  out_status : NTSTATUS;
  out_after : State;
  out_trace : list Event
}.

Definition serve (mj : MajorFunction) (Irp : IRP) (s : State) : Outcome :=
  let r := handler mj Irp s in
  {| out_mj := mj; out_irp := Irp; out_before := s;
     out_status := result r; out_after := final r; out_trace := trace r |}.

Fixpoint run (reqs : list (MajorFunction * IRP)) (s : State) : list Outcome :=
  match reqs with
  | [] => []
  | (mj, Irp) :: reqs' =>
      let o := serve mj Irp s in
      o :: run reqs' (out_after o)
  end.

(** A create request gets past the two guards of [DrvCreate]: the requestor
    holds SeDebugPrivilege and no handle is in use. *)
Definition create_admitted (Irp : IRP) (s : State) : bool :=
  SeSinglePrivilegeCheck ext DebugPrivilege (RequestorMode Irp) (world s)
  && negb (g_HandleInUse s).

Definition is_create (mj : MajorFunction) : bool :=
  match mj with IRP_MJ_CREATE => true | _ => false end.
Definition is_device_control (mj : MajorFunction) : bool :=
  match mj with IRP_MJ_DEVICE_CONTROL => true | _ => false end.

(** The call was a [DrvCreate] that returned STATUS_SUCCESS. *)
Definition successful_create (o : Outcome) : bool :=
  is_create (out_mj o) && (out_status o =? STATUS_SUCCESS).

(** A handler call that did nothing but complete its IRP with
    STATUS_SUCCESS. *)
Definition idle (o : Outcome) : Prop :=
  out_status o = STATUS_SUCCESS /\
  out_after o = out_before o /\
  out_trace o = [EvIoCompleteRequest (set_IoStatus (out_irp o) STATUS_SUCCESS 0)].

(** The guest-state array is the one [DriverEntry] allocated for the
    processors now active: [sizeof(VIRTUAL_MACHINE_STATE) * ProcessorCount]
    bytes, the sizes within the range of their C types. *)
Definition guest_state_allocated (s : State) : Prop :=
  let n := KeQueryActiveProcessorCount ext (world s) in
  0 <= n < 2 ^ 31 /\
  0 <= sizeof_VIRTUAL_MACHINE_STATE K /\
  sizeof_VIRTUAL_MACHINE_STATE K * n < 2 ^ 64 /\
  Z.of_nat (length (g_GuestState s)) = sizeof_VIRTUAL_MACHINE_STATE K * n.

(** The length [DrvCreate] passes to [RtlZeroMemory], and the array it
    leaves. *)
Definition zero_length (s : State) : Z :=
  to_size_t (sizeof_VIRTUAL_MACHINE_STATE K
             * to_size_t (to_int (KeQueryActiveProcessorCount ext (world s)))).

Definition zeroed (s : State) : list Z :=
  RtlZeroMemory (g_GuestState s) (zero_length s).

End Driver.

Arguments out_mj {World}.
Arguments out_irp {World}.
Arguments out_before {World}.
Arguments out_status {World}.
Arguments out_after {World}.
Arguments out_trace {World}.

(** ** A concrete machine

    One instance of the constants and of the outside routines, on which
    the handlers can be run: a host whose VMX can be switched on once
    until it is terminated, and a requestor that may or may not hold
    SeDebugPrivilege. *)
Module Scenario.

(** [CTL_CODE] of devioctl.h. *)
Definition CTL_CODE (DeviceType Function Method Access : Z) : Z :=
  Z.lor (Z.lor (Z.lor (Z.shiftl DeviceType 16) (Z.shiftl Access 14))
               (Z.shiftl Function 2)) Method.
Definition FILE_DEVICE_UNKNOWN : Z := 0x22.
Definition METHOD_BUFFERED : Z := 0.
Definition FILE_ANY_ACCESS : Z := 0.

Definition consts : Constants :=
  {| sizeof_VIRTUAL_MACHINE_STATE := 8;
     SIZEOF_REGISTER_EVENT := 16;
     IRP_BASED := 0;
     EVENT_BASED := 1;
     IOCTL_REGISTER_EVENT :=
       CTL_CODE FILE_DEVICE_UNKNOWN 0x800 METHOD_BUFFERED FILE_ANY_ACCESS;
     IOCTL_RETURN_IRP_PENDING_PACKETS_AND_DISALLOW_IOCTL :=
       CTL_CODE FILE_DEVICE_UNKNOWN 0x801 METHOD_BUFFERED FILE_ANY_ACCESS;
     IOCTL_TERMINATE_VMX :=
       CTL_CODE FILE_DEVICE_UNKNOWN 0x802 METHOD_BUFFERED FILE_ANY_ACCESS |}.

Record Host := {
  vmx_on : bool;
  requestor_has_debug_privilege : bool;
  processors : Z
}.

Definition with_vmx (h : Host) (b : bool) : Host :=
  {| vmx_on := b;
     requestor_has_debug_privilege := requestor_has_debug_privilege h;
     processors := processors h |}.

Definition host_ext : Externals Host :=
  {| SeSinglePrivilegeCheck := fun l m h =>
       match m with
       | KernelMode => true
       | UserMode =>
           requestor_has_debug_privilege h && (LowPart l =? SE_DEBUG_PRIVILEGE)
       end;
     KeQueryActiveProcessorCount := processors;
     HvVmxInitialize := fun gs h =>
       if vmx_on h then (false, (gs, h))
       else (true, (repeat 1 (length gs), with_vmx h true));
     DebuggerInitialize := fun gs h => (true, (gs, h));
     HvTerminateVmx := fun gs h => (gs, with_vmx h false);
     PoolManagerCheckAndPerformAllocation := fun gs h => (gs, h);
     LogRegisterIrpBasedNotification := fun _ h => (STATUS_PENDING, h);
     LogRegisterEventBasedNotification := fun _ h => (STATUS_SUCCESS, h) |}.

(** The state left by [DriverEntry] on a two-processor host. *)
Definition loaded (privileged : bool) : DriverState Host :=
  {| g_HandleInUse := false;
     g_AllowIOCTLFromUsermode := false;
     g_GuestState := repeat 0 16%nat;
     world := {| vmx_on := false;
                 requestor_has_debug_privilege := privileged;
                 processors := 2 |} |}.

(** The same host while a debugger holds the handle. *)
Definition in_use (privileged : bool) : DriverState Host :=
  {| g_HandleInUse := true;
     g_AllowIOCTLFromUsermode := true;
     g_GuestState := repeat 1 16%nat;
     world := {| vmx_on := true;
                 requestor_has_debug_privilege := privileged;
                 processors := 2 |} |}.

(** The handle is held and IOCTLs have been switched off. *)
Definition switched_off : DriverState Host :=
  {| g_HandleInUse := true;
     g_AllowIOCTLFromUsermode := false;
     g_GuestState := repeat 1 16%nat;
     world := {| vmx_on := true;
                 requestor_has_debug_privilege := true;
                 processors := 2 |} |}.

Definition user_irp (code : Z) : IRP :=
  {| RequestorMode := UserMode;
     IoStatus := {| Status := 0; Information := 0 |};
     SystemBuffer := None;
     CurrentStackLocation := {| IoControlCode := code; InputBufferLength := 0 |} |}.

(** No handle is held, IOCTLs are off, and VMX was left on: what remains
    after a debugger switched IOCTLs off and closed its handle without
    terminating VMX. *)
Definition stale : DriverState Host :=
  {| g_HandleInUse := false;
     g_AllowIOCTLFromUsermode := false;
     g_GuestState := repeat 1 16%nat;
     world := {| vmx_on := true;
                 requestor_has_debug_privilege := true;
                 processors := 2 |} |}.

Definition terminate_irp : IRP := user_irp (IOCTL_TERMINATE_VMX consts).
Definition disallow_irp : IRP :=
  user_irp (IOCTL_RETURN_IRP_PENDING_PACKETS_AND_DISALLOW_IOCTL consts).
Definition plain_irp : IRP := user_irp 0.

End Scenario.

(** ** Statements of the specification about Driver.c, as they are worded *)

(** Every call of the IOCTL dispatcher starts with the pool drain. *)
Definition drain_on_every_tick : Prop :=
  forall (World : Type) (K : Constants) (ext : Externals World)
         (Irp : IRP) (s : DriverState World),
  exists rest,
    trace (DrvDispatchIoControl K ext Irp s)
    = EvPoolManagerCheckAndPerformAllocation :: rest.

(** While a handle is in use, every create returns STATUS_UNSUCCESSFUL,
    does not initialize the hypervisor and changes nothing. *)
Definition create_unsuccessful_while_in_use : Prop :=
  forall (World : Type) (K : Constants) (ext : Externals World)
         (Irp : IRP) (s : DriverState World),
  g_HandleInUse s = true ->
  result (DrvCreate K ext Irp s) = STATUS_UNSUCCESSFUL /\
  calls is_HvVmxInitialize (trace (DrvCreate K ext Irp s)) = 0%nat /\
  final (DrvCreate K ext Irp s) = s.

(** Every create zeroes the whole guest-state array. *)
Definition every_create_zeroes_guest_state : Prop :=
  forall (World : Type) (K : Constants) (ext : Externals World)
         (Irp : IRP) (s : DriverState World),
  In (EvRtlZeroMemory (Z.of_nat (length (g_GuestState s))))
     (trace (DrvCreate K ext Irp s)).

(** ** Breakpoint and stepping engine *)
Module Breakpoints.

(** Modelled from the spec: the BreakpointDescriptor of the data model
    (target virtual address, owning process context, original byte
    replaced, enabled/disabled state, hit-count); the engine's code is in
    sibling files of the driver. *)
Record BreakpointDescriptor := {
  target_address : Z;
  owning_process : Z;
  original_byte : Z;
  enabled : bool;
  hit_count : nat
}.

(** Modelled from the spec: guest memory as bytes by virtual address, and
    the descriptors recorded by the engine, by target address. *)
Record Guest := {
  memory : gmap Z Z;
  descriptors : gmap Z BreakpointDescriptor
}.

(** Modelled from the spec: the typed result of [ClearBreakpoint]. *)
Inductive ClearResult := Cleared | NotFound.

(** The trap instruction written over the guest byte (x86 INT3). *)
Definition TRAP_INSTRUCTION : Z := 0xCC.

(** Modelled from the spec: an address has an active breakpoint when a
    descriptor is recorded for it and is enabled. *)
Definition active (a : Z) (g : Guest) : bool :=
  match descriptors g !! a with
  | Some d => enabled d
  | None => false
  end.

(** Modelled from the spec: [SetSoftwareBreakpoint(address)] saves the
    original instruction byte, writes a trap instruction, and records a
    BreakpointDescriptor. *)
Definition SetSoftwareBreakpoint (process a : Z) (g : Guest) : Guest :=
  match memory g !! a with
  | None => g
  | Some b =>
      if active a g then g
      else
        {| memory := <[a := TRAP_INSTRUCTION]> (memory g);
           descriptors :=
             <[a := {| target_address := a; owning_process := process;
                       original_byte := b; enabled := true;
                       hit_count := 0 |}]> (descriptors g) |}
  end.

(** Modelled from the spec: [ClearBreakpoint(address)] restores the
    original byte and removes the descriptor; on an address with no active
    breakpoint it is a no-op and returns a not-found result. *)
Definition ClearBreakpoint (a : Z) (g : Guest) : ClearResult * Guest :=
  match descriptors g !! a with
  | Some d =>
      if enabled d then
        (Cleared,
         {| memory := <[a := original_byte d]> (memory g);
            descriptors := delete a (descriptors g) |})
      else (NotFound, g)
  | None => (NotFound, g)
  end.

(** A guest with one code byte and no breakpoint. *)
Definition sample : Guest :=
  {| memory := {[ 0x1000 := 0x90 ]}; descriptors := ∅ |}.

End Breakpoints.

(** ** EPT manager *)
Module Ept.

Record AccessRights := {
  ReadAccess : bool;
  WriteAccess : bool;
  ExecuteAccess : bool
}.

Inductive HookMode := ExecuteTrap | WriteTrap | ReadTrap.

Definition PAGE_SIZE : Z := 4096.
Definition LARGE_PAGE_SIZE : Z := 512 * PAGE_SIZE.

(** Modelled from the spec: the EptPageTableHierarchy of the data model, a
    table mirroring physical memory (the large-page entries of the identity
    map) with guest-physical-address granularity overrides for hooked pages
    (the 4KB entries of split large pages), and the saved state from which
    an unhook restores the access rights of a hooked page.  The EPT code is
    in sibling files of the driver. *)
Record EptPageTableHierarchy := {
  large_entries : gmap Z AccessRights;
  small_entries : gmap Z AccessRights;
  saved_rights : gmap Z AccessRights
}.

Definition page_of (gpa : Z) : Z := gpa / PAGE_SIZE.
Definition large_page_of (gpa : Z) : Z := gpa / LARGE_PAGE_SIZE.

(** The access rights of the EPT entry that translates [gpa]: the 4KB
    entry when there is one, the covering large page otherwise. *)
Definition entry_rights (h : EptPageTableHierarchy) (gpa : Z)
  : option AccessRights :=
  match small_entries h !! page_of gpa with
  | Some r => Some r
  | None => large_entries h !! large_page_of gpa
  end.

(** Marking an entry to trap one access type. *)
Definition trap (mode : HookMode) (r : AccessRights) : AccessRights :=
  match mode with
  | ExecuteTrap => {| ReadAccess := ReadAccess r; WriteAccess := WriteAccess r;
                      ExecuteAccess := false |}
  | WriteTrap => {| ReadAccess := ReadAccess r; WriteAccess := false;
                    ExecuteAccess := ExecuteAccess r |}
  | ReadTrap => {| ReadAccess := false; WriteAccess := WriteAccess r;
                   ExecuteAccess := ExecuteAccess r |}
  end.

(** Modelled from the spec: [HookPage(guestPhysicalAddress, mode)] splits
    the covering large page into 4KB entries if necessary (the page gets a
    4KB entry of its own) and marks the entry to trap the given access
    type; the rights that held before the first hook are kept in the saved
    state. *)
Definition HookPage (gpa : Z) (mode : HookMode) (h : EptPageTableHierarchy)
  : EptPageTableHierarchy :=
  match entry_rights h gpa with
  | None => h
  | Some r =>
      {| large_entries := large_entries h;
         small_entries := <[page_of gpa := trap mode r]> (small_entries h);
         saved_rights :=
           match saved_rights h !! page_of gpa with
           | Some _ => saved_rights h
           | None => <[page_of gpa := r]> (saved_rights h)
           end |}
  end.

(** Modelled from the spec: [UnhookPage(guestPhysicalAddress)] restores
    exactly the previous access rights, from the saved state. *)
Definition UnhookPage (gpa : Z) (h : EptPageTableHierarchy)
  : EptPageTableHierarchy :=
  match saved_rights h !! page_of gpa with
  | None => h
  | Some r =>
      {| large_entries := large_entries h;
         small_entries := <[page_of gpa := r]> (small_entries h);
         saved_rights := delete (page_of gpa) (saved_rights h) |}
  end.

Inductive Call := CallHookPage (mode : HookMode) | CallUnhookPage.

Definition call (gpa : Z) (h : EptPageTableHierarchy) (c : Call)
  : EptPageTableHierarchy :=
  match c with
  | CallHookPage mode => HookPage gpa mode h
  | CallUnhookPage => UnhookPage gpa h
  end.

(** A sequence of hook and unhook calls on one address. *)
Definition calls_on (gpa : Z) (cs : list Call) (h : EptPageTableHierarchy)
  : EptPageTableHierarchy :=
  fold_left (call gpa) cs h.

(** What every hook and unhook call on [gpa] keeps true, [h0] being the
    hierarchy before the first call: while the page is hooked the saved
    state holds the rights its entry had in [h0], and while it is not
    hooked the entry has them. *)
Definition rights_kept (gpa : Z) (h0 h : EptPageTableHierarchy) : Prop :=
  match saved_rights h !! page_of gpa with
  | Some r => entry_rights h0 gpa = Some r
  | None => entry_rights h gpa = entry_rights h0 gpa
  end.

Definition full_access : AccessRights :=
  {| ReadAccess := true; WriteAccess := true; ExecuteAccess := true |}.

(** The identity map of the first large page, nothing hooked. *)
Definition sample : EptPageTableHierarchy :=
  {| large_entries := {[ 0 := full_access ]};
     small_entries := ∅;
     saved_rights := ∅ |}.

End Ept.

(** ** Event/hook registry *)
Module HookRegistry.

(** Modelled from the spec: the EventHookEntry of the data model, a
    condition (exit reason and qualifier), an action, a scope
    (one logical processor or global) and the owning debugger session.
    The registry's code is in sibling files of the driver. *)
Record Condition := { exit_reason : Z; qualifier : Z }.
Inductive Action := Log | Break | Redirect.
Inductive Scope := GlobalScope | ProcessorScope (lp : nat).

Record EventHookEntry := {
  hook_id : nat;
  condition : Condition;
  action : Action;
  scope : Scope;
  session : nat
}.

Record Registry := {
  entries : list EventHookEntry;
  next_hook_id : nat
}.

Definition empty : Registry := {| entries := []; next_hook_id := 0 |}.

#[global] Instance Condition_eq_dec : EqDecision Condition.
Proof. solve_decision. Defined.
#[global] Instance Scope_eq_dec : EqDecision Scope.
Proof. solve_decision. Defined.

(** The entry is registered for this condition in this scope. *)
Definition registered_for (c : Condition) (sc : Scope) (e : EventHookEntry)
  : bool :=
  bool_decide (condition e = c) && bool_decide (scope e = sc).

(** Number of entries of the registry for a (condition, scope). *)
Definition count (c : Condition) (sc : Scope) (r : Registry) : nat :=
  length (List.filter (registered_for c sc) (entries r)).

(** Modelled from the spec: the typed result of [Register]. *)
Inductive RegisterResult := Registered (id : nat) | Rejected.

(** Modelled from the spec: [Register(condition, action, scope) -> hookId];
    conflicting registrations (same condition, same scope) are rejected,
    not merged. *)
Definition Register (sess : nat) (c : Condition) (a : Action) (sc : Scope)
                    (r : Registry) : RegisterResult * Registry :=
  if existsb (registered_for c sc) (entries r) then (Rejected, r)
  else
    (Registered (next_hook_id r),
     {| entries :=
          {| hook_id := next_hook_id r; condition := c; action := a;
             scope := sc; session := sess |} :: entries r;
        next_hook_id := S (next_hook_id r) |}).

(** A sequence of [Register] calls. *)
Definition register_all (sess : nat)
    (reqs : list (Condition * Action * Scope)) (r : Registry) : Registry :=
  fold_left (fun r q => snd (Register sess (fst (fst q)) (snd (fst q)) (snd q) r))
            reqs r.

(** Some call of the sequence was for this (condition, scope). *)
Definition requested (c : Condition) (sc : Scope)
    (reqs : list (Condition * Action * Scope)) : bool :=
  existsb (fun q => bool_decide (fst (fst q) = c) && bool_decide (snd q = sc))
          reqs.

End HookRegistry.

(** ** More of Driver.c: runs of requests *)
Section DriverRuns.

Context {World : Type}.
Variable K : Constants.
Variable ext : Externals World.

(** The driver state after a sequence of requests. *)
Fixpoint run_final (reqs : list (MajorFunction * IRP)) (s : DriverState World)
  : DriverState World :=
  match reqs with
  | [] => s
  | (mj, Irp) :: reqs' => run_final reqs' (final (handler K ext mj Irp s))
  end.

Definition is_close (mj : MajorFunction) : bool :=
  match mj with IRP_MJ_CLOSE => true | _ => false end.

(** Handles given out and not yet closed: a create that returned
    STATUS_SUCCESS gives one out, a close takes them back. *)
Definition held_step (n : nat) (o : @Outcome World) : nat :=
  if is_close (out_mj o) then 0%nat
  else if successful_create o then S n
  else n.

Definition held (n : nat) (os : list (@Outcome World)) : nat :=
  fold_left held_step os n.

(** *** What the I/O manager delivers

    These rules are the I/O manager's, not Driver.c's: a create may arrive
    at any time and opens a handle when it returns STATUS_SUCCESS; every
    other request arrives through an open handle, and a close gives its
    handle back.  [n] is the number of open handles. *)
Definition handles_step (n : nat) (o : @Outcome World) : nat :=
  match out_mj o with
  | IRP_MJ_CREATE => if out_status o =? STATUS_SUCCESS then S n else n
  | IRP_MJ_CLOSE => Nat.pred n
  | _ => n
  end.

Definition delivered (n : nat) (o : @Outcome World) : bool :=
  match out_mj o with
  | IRP_MJ_CREATE => true
  | _ => (0 <? n)%nat
  end.

Fixpoint deliverable (n : nat) (os : list (@Outcome World)) : bool :=
  match os with
  | [] => true
  | o :: os' => delivered n o && deliverable (handles_step n o) os'
  end.

Definition handles_after (n : nat) (os : list (@Outcome World)) : nat :=
  fold_left handles_step os n.

End DriverRuns.

Definition is_LogRegister (e : Event) : bool :=
  match e with
  | EvLogRegisterIrpBasedNotification _
  | EvLogRegisterEventBasedNotification _ => true
  | _ => false
  end.

(** ** More of Driver.c: [DriverEntry] *)

(** Constants of wdm.h and ntstatus.h used by [DriverEntry]. *)
Module Wdm.
Definition IRP_MJ_CREATE : Z := 0x00.
Definition IRP_MJ_CLOSE : Z := 0x02.
Definition IRP_MJ_READ : Z := 0x03.
Definition IRP_MJ_WRITE : Z := 0x04.
Definition IRP_MJ_DEVICE_CONTROL : Z := 0x0e.
Definition IRP_MJ_MAXIMUM_FUNCTION : Z := 0x1b.
Definition DO_BUFFERED_IO : Z := 0x00000004.
Definition STATUS_INSUFFICIENT_RESOURCES : NTSTATUS := 0xC000009A.
(** [NT_SUCCESS(st)] is [(NTSTATUS)(st) >= 0] on the signed 32-bit value. *)
Definition NT_SUCCESS (st : NTSTATUS) : bool := to_int st >=? 0.
End Wdm.

Module Loader.

(** What a slot of [DriverObject->MajorFunction] points to: one of the
    dispatch routines of Driver.c, or whatever the I/O manager had put
    there before [DriverEntry] ran. *)
Inductive PDRIVER_DISPATCH :=
| ptr_DrvUnsupported | ptr_DrvClose | ptr_DrvCreate | ptr_DrvRead
| ptr_DrvWrite | ptr_DrvDispatchIoControl | ptr_preset (n : nat).

Inductive PDRIVER_UNLOAD := ptr_DrvUnload.

Record DRIVER_OBJECT := {
  MajorFunctionTable : list PDRIVER_DISPATCH;
  DriverUnload : option PDRIVER_UNLOAD
}.

Record DEVICE_OBJECT := { Flags : Z }.

Inductive LoadEvent :=
| LdWPP_INIT_TRACING
| LdLogInitialize (ret : bool)
| LdDbgPrint (msg : string)
| LdDbgBreakPoint
| LdExInitializeDriverRuntime
| LdExAllocatePoolWithTag (NumberOfBytes : Z) (null : bool)
| LdRtlZeroMemory (Length : Z)
| LdLogInfo (msg : string)
| LdIoCreateDevice (ret : NTSTATUS)
| LdIoCreateSymbolicLink
| LdASSERT (cond : bool).

Definition is_LdIoCreateDevice (e : LoadEvent) : bool :=
  match e with LdIoCreateDevice _ => true | _ => false end.

(** The kernel routines [DriverEntry] calls, and the build flag it is
    compiled under.  [ExAllocatePoolWithTag] returns NULL ([None]) or a
    block of the size asked for, whose bytes are whatever the pool held.
    [IoCreateDevice] returns its status and what it left in the
    [DeviceObject] out-parameter, which starts as NULL. *)
Record LoaderExternals (World : Type) := {
  UseDbgPrintInsteadOfUsermodeMessageTracking : bool;
  LogInitialize : World -> bool * World;
  ExAllocatePoolWithTag : Z -> World -> option (nat -> Z) * World;
  IoCreateDevice : World -> NTSTATUS * option DEVICE_OBJECT * World;
  IoCreateSymbolicLink : World -> World
}.
Arguments UseDbgPrintInsteadOfUsermodeMessageTracking {World}.
Arguments LogInitialize {World}.
Arguments ExAllocatePoolWithTag {World}.
Arguments IoCreateDevice {World}.
Arguments IoCreateSymbolicLink {World}.

(** How [DriverEntry] ends: it returns a status, leaving [g_GuestState]
    (NULL or the array), the driver object and the device object; or the
    statement [DeviceObject->Flags |= DO_BUFFERED_IO] goes through a NULL
    pointer. *)
Inductive Loaded (World : Type) :=
| Returned (st : NTSTATUS) (GuestState : option (list Z))
           (DriverObject : DRIVER_OBJECT) (DeviceObject : option DEVICE_OBJECT)
           (w : World)
| NullDereference (GuestState : option (list Z))
                  (DriverObject : DRIVER_OBJECT) (w : World).
Arguments Returned {World}.
Arguments NullDereference {World}.

Definition driver_object_of {World} (r : Loaded World) : DRIVER_OBJECT :=
  match r with
  | Returned _ _ D _ _ => D
  | NullDereference _ D _ => D
  end.

Section Entry.

Context {World : Type}.
Variable K : Constants.
Variable ext : Externals World.
Variable L : LoaderExternals World.

(** The block under [#if !UseDbgPrintInsteadOfUsermodeMessageTracking]
    (the messages are written without their trailing newline). *)
Definition log_setup (w : World) : World * list LoadEvent :=
  if UseDbgPrintInsteadOfUsermodeMessageTracking L then (w, [])
  else
    let r := LogInitialize L w in
    (snd r,
     LdLogInitialize (fst r)
       :: (if fst r then []
           else [LdDbgPrint "[*] Log buffer is not initialized !";
                 LdDbgBreakPoint])).

(** [for (Index = 0; Index < IRP_MJ_MAXIMUM_FUNCTION; Index++)
       DriverObject->MajorFunction[Index] = DrvUnsupported;]
    followed by the five assignments, in the order of the source. *)
Definition set_major_functions (tbl : list PDRIVER_DISPATCH)
  : list PDRIVER_DISPATCH :=
  let t0 := fold_left (fun t Index => <[Index := ptr_DrvUnsupported]> t)
                      (seq 0 (Z.to_nat Wdm.IRP_MJ_MAXIMUM_FUNCTION)) tbl in
  let t1 := <[Z.to_nat Wdm.IRP_MJ_CLOSE := ptr_DrvClose]> t0 in
  let t2 := <[Z.to_nat Wdm.IRP_MJ_CREATE := ptr_DrvCreate]> t1 in
  let t3 := <[Z.to_nat Wdm.IRP_MJ_READ := ptr_DrvRead]> t2 in
  let t4 := <[Z.to_nat Wdm.IRP_MJ_WRITE := ptr_DrvWrite]> t3 in
  <[Z.to_nat Wdm.IRP_MJ_DEVICE_CONTROL := ptr_DrvDispatchIoControl]> t4.

(** The number of bytes asked of the pool and zeroed:
    [sizeof(VIRTUAL_MACHINE_STATE) * ProcessorCount], the count a UINT32. *)
Definition guest_state_bytes (w : World) : Z :=
  to_size_t (sizeof_VIRTUAL_MACHINE_STATE K
             * to_size_t (KeQueryActiveProcessorCount ext w mod 2 ^ 32)).

Definition DriverEntry (DriverObject : DRIVER_OBJECT) (w : World)
  : Loaded World * list LoadEvent :=
  let lg := log_setup w in
  let size := guest_state_bytes (fst lg) in
  let a := ExAllocatePoolWithTag L size (fst lg) in
  let start := [LdWPP_INIT_TRACING] ++ snd lg ++ [LdExInitializeDriverRuntime] in
  match fst a with
  | None =>
      (Returned Wdm.STATUS_INSUFFICIENT_RESOURCES None DriverObject None (snd a),
       start ++ [LdExAllocatePoolWithTag size true;
                 LdDbgPrint "Insufficient memory"; LdDbgBreakPoint])
  | Some pool =>
      let g := RtlZeroMemory (map pool (seq 0 (Z.to_nat size))) size in
      let d := IoCreateDevice L (snd a) in
      let Ntstatus := fst (fst d) in
      let DeviceObject := snd (fst d) in
      let created := Ntstatus =? STATUS_SUCCESS in
      let DriverObject' :=
        if created then
          {| MajorFunctionTable :=
               set_major_functions (MajorFunctionTable DriverObject);
             DriverUnload := Some ptr_DrvUnload |}
        else DriverObject in
      let w' := if created then IoCreateSymbolicLink L (snd d) else snd d in
      let t := start ++ [LdExAllocatePoolWithTag size false;
                         LdRtlZeroMemory size;
                         LdLogInfo "Hyperdbg is Loaded :)";
                         LdIoCreateDevice Ntstatus]
                     ++ (if created
                         then [LdLogInfo "Setting device major functions";
                               LdIoCreateSymbolicLink]
                         else []) in
      match DeviceObject with
      | None => (NullDereference (Some g) DriverObject' w', t)
      | Some dev =>
          (Returned Ntstatus (Some g) DriverObject'
                    (Some {| Flags := Z.lor (Flags dev) Wdm.DO_BUFFERED_IO |}) w',
           t ++ [LdASSERT (Wdm.NT_SUCCESS Ntstatus)])
      end
  end.

(** The major function a code of an IRP stands for, and the routine the
    table has for it after [DriverEntry]. *)
Definition major_function_of (code : Z) : MajorFunction :=
  if code =? Wdm.IRP_MJ_CREATE then IRP_MJ_CREATE
  else if code =? Wdm.IRP_MJ_CLOSE then IRP_MJ_CLOSE
  else if code =? Wdm.IRP_MJ_READ then IRP_MJ_READ
  else if code =? Wdm.IRP_MJ_WRITE then IRP_MJ_WRITE
  else if code =? Wdm.IRP_MJ_DEVICE_CONTROL then IRP_MJ_DEVICE_CONTROL
  else IRP_MJ_other.

(** Calling through a slot of the table. *)
Definition call_dispatch (p : PDRIVER_DISPATCH)
  : option (IRP -> M (DriverState World) NTSTATUS) :=
  match p with
  | ptr_DrvUnsupported => Some DrvUnsupported
  | ptr_DrvClose => Some DrvClose
  | ptr_DrvCreate => Some (DrvCreate K ext)
  | ptr_DrvRead => Some DrvRead
  | ptr_DrvWrite => Some DrvWrite
  | ptr_DrvDispatchIoControl => Some (DrvDispatchIoControl K ext)
  | ptr_preset _ => None
  end.

(** The driver state once [DriverEntry] has returned with the array [g];
    the two flags are zero-initialized globals. *)
Definition after_entry (g : list Z) (w : World) : DriverState World :=
  {| g_HandleInUse := false; g_AllowIOCTLFromUsermode := false;
     g_GuestState := g; world := w |}.

End Entry.

(** A loader for the concrete machine: the pool holds 0xAA bytes and the
    device is created. *)
Definition host_loader : LoaderExternals Scenario.Host :=
  {| UseDbgPrintInsteadOfUsermodeMessageTracking := false;
     LogInitialize := fun h => (true, h);
     ExAllocatePoolWithTag := fun _ h => (Some (fun _ => 0xAA), h);
     IoCreateDevice := fun h => (STATUS_SUCCESS, Some {| Flags := 0 |}, h);
     IoCreateSymbolicLink := fun h => h |}.

(** A loader whose [IoCreateDevice] fails and leaves [DeviceObject] NULL. *)
Definition failing_loader : LoaderExternals Scenario.Host :=
  {| UseDbgPrintInsteadOfUsermodeMessageTracking := false;
     LogInitialize := fun h => (true, h);
     ExAllocatePoolWithTag := fun _ h => (Some (fun _ => 0xAA), h);
     IoCreateDevice := fun h => (STATUS_UNSUCCESSFUL, None, h);
     IoCreateSymbolicLink := fun h => h |}.

(** A loader on a machine whose pool is exhausted. *)
Definition starved_loader : LoaderExternals Scenario.Host :=
  {| UseDbgPrintInsteadOfUsermodeMessageTracking := false;
     LogInitialize := fun h => (true, h);
     ExAllocatePoolWithTag := fun _ h => (None, h);
     IoCreateDevice := fun h => (STATUS_SUCCESS, Some {| Flags := 0 |}, h);
     IoCreateSymbolicLink := fun h => h |}.

(** A driver object as the I/O manager hands it over: 28 preset slots. *)
Definition fresh_driver_object : DRIVER_OBJECT :=
  {| MajorFunctionTable := map ptr_preset (seq 0 28);
     DriverUnload := None |}.

End Loader.

(** More requests and states for the concrete machine. *)
Module Samples.
Import Scenario.

(** A well-formed IOCTL_REGISTER_EVENT request for an IRP-based
    notification. *)
Definition register_irp : IRP :=
  {| RequestorMode := UserMode;
     IoStatus := {| Status := 0; Information := 0 |};
     SystemBuffer := Some {| Type_ := 0; hEvent := 0 |};
     CurrentStackLocation :=
       {| IoControlCode := IOCTL_REGISTER_EVENT consts;
          InputBufferLength := 16 |} |}.

(** The same request with an empty input buffer. *)
Definition short_register_irp : IRP := user_irp (IOCTL_REGISTER_EVENT consts).

(** A driver whose guest-state array has two entries while one processor
    is active. *)
Definition longer_array : DriverState Host :=
  {| g_HandleInUse := false;
     g_AllowIOCTLFromUsermode := false;
     g_GuestState := repeat 1 16%nat;
     world := {| vmx_on := false;
                 requestor_has_debug_privilege := true;
                 processors := 1 |} |}.

End Samples.

(** * Properties of the handlers *)

Ltac drv_unfold :=
  unfold serve, handler, DrvCreate, DrvDispatchIoControl, DrvClose, DrvRead,
    DrvWrite, DrvUnsupported, ioctl_switch, register_event, complete,
    IoCompleteRequest, IoGetCurrentIrpStackLocation,
    LogInfo, LogInfoImmediate, LogWarning, LogError,
    call_SeSinglePrivilegeCheck, call_KeQueryActiveProcessorCount,
    zero_g_GuestState, call_HvVmxInitialize, call_DebuggerInitialize,
    call_HvTerminateVmx, call_PoolManagerCheckAndPerformAllocation,
    call_LogRegisterIrpBasedNotification,
    call_LogRegisterEventBasedNotification,
    set_g_HandleInUse, set_g_AllowIOCTLFromUsermode, set_hv, set_world,
    bind, ret, get, emit, result, final, trace in *.

Ltac drv_cases :=
  repeat (cbn;
          match goal with
          | |- context [if ?b then _ else _] => destruct b eqn:?
          | |- context [match ?o with Some _ => _ | None => _ end] =>
              destruct o eqn:?
          end);
  cbn.

(** Case analysis on the tests of a handler, innermost test first. *)
Ltac drv_leaf_cases :=
  repeat (cbn;
          match goal with
          | |- context [if ?b then _ else _] =>
              lazymatch b with
              | context [if _ then _ else _] => fail
              | context [match _ with Some _ => _ | None => _ end] => fail
              | _ => destruct b eqn:?
              end
          | |- context [match ?o with Some _ => _ | None => _ end] =>
              lazymatch o with
              | context [if _ then _ else _] => fail
              | _ => destruct o eqn:?
              end
          end);
  cbn.

Section DriverFacts.

Context {World : Type}.
Variable K : Constants.
Variable ext : Externals World.

(** A create by a requestor without the privilege: the whole run. *)
Lemma DrvCreate_denied (Irp : IRP) (s : DriverState World) :
  SeSinglePrivilegeCheck ext DebugPrivilege (RequestorMode Irp) (world s) = false ->
  DrvCreate K ext Irp s
  = (STATUS_ACCESS_DENIED, s,
     [EvIoCompleteRequest (set_IoStatus Irp STATUS_ACCESS_DENIED 0)]).
Proof.
  intros Hp. drv_unfold. rewrite Hp. reflexivity.
Qed.

(** A create by a privileged requestor while the handle is in use. *)
Lemma DrvCreate_in_use (Irp : IRP) (s : DriverState World) :
  SeSinglePrivilegeCheck ext DebugPrivilege (RequestorMode Irp) (world s) = true ->
  g_HandleInUse s = true ->
  DrvCreate K ext Irp s
  = (STATUS_UNSUCCESSFUL, s,
     [EvIoCompleteRequest (set_IoStatus Irp STATUS_UNSUCCESSFUL 0)]).
Proof.
  intros Hp Hu. drv_unfold. rewrite Hp. cbn. rewrite Hu. reflexivity.
Qed.

(** A create that is past the two guards: the whole run, by the results of
    [HvVmxInitialize] and [DebuggerInitialize]. *)
Lemma DrvCreate_admitted (Irp : IRP) (s : DriverState World) :
  create_admitted ext Irp s = true ->
  DrvCreate K ext Irp s
  = let hv := HvVmxInitialize ext (zeroed K ext s) (world s) in
    let dbg := DebuggerInitialize ext (fst (snd hv)) (snd (snd hv)) in
    let start := [EvLogInfo "Hyperdbg's hypervisor Started...";
                  EvRtlZeroMemory (zero_length K ext s);
                  EvHvVmxInitialize (zeroed K ext s) (fst hv)] in
    if fst hv then
      if fst dbg then
        (STATUS_SUCCESS,
         Build_DriverState true true (fst (snd dbg)) (snd (snd dbg)),
         start ++ [EvLogInfo "Hyperdbg's hypervisor loaded successfully :)";
                   EvDebuggerInitialize true;
                   EvLogInfo "Hyperdbg's debugger loaded successfully";
                   EvIoCompleteRequest (set_IoStatus Irp STATUS_SUCCESS 0)])
      else
        (STATUS_UNSUCCESSFUL,
         Build_DriverState false true (fst (snd dbg)) (snd (snd dbg)),
         start ++ [EvLogInfo "Hyperdbg's hypervisor loaded successfully :)";
                   EvDebuggerInitialize false;
                   EvLogError "Hyperdbg's debugger was not loaded";
                   EvIoCompleteRequest (set_IoStatus Irp STATUS_UNSUCCESSFUL 0)])
    else
      (STATUS_UNSUCCESSFUL,
       Build_DriverState false true (fst (snd hv)) (snd (snd hv)),
       start ++ [EvLogError "Hyperdbg's hypervisor was not loaded :(";
                 EvIoCompleteRequest (set_IoStatus Irp STATUS_UNSUCCESSFUL 0)]).
Proof.
  unfold create_admitted. intros [Hp Hu]%andb_true_iff.
  apply negb_true_iff in Hu.
  unfold zeroed, zero_length. drv_unfold. rewrite Hp. cbn. rewrite Hu. cbn.
  destruct (HvVmxInitialize ext _ _) as [[] [gs1 w1]]; cbn;
    [|rewrite ?Hu; reflexivity].
  destruct (DebuggerInitialize ext _ _) as [[] [gs2 w2]]; cbn;
    rewrite ?Hu; reflexivity.
Qed.

(** A create that is stopped by one of the two guards. *)
Lemma DrvCreate_rejected (Irp : IRP) (s : DriverState World) :
  create_admitted ext Irp s = false ->
  exists st,
    DrvCreate K ext Irp s
    = (st, s, [EvIoCompleteRequest (set_IoStatus Irp st 0)]) /\
    (st = STATUS_ACCESS_DENIED \/ st = STATUS_UNSUCCESSFUL).
Proof.
  unfold create_admitted. intros H.
  destruct (SeSinglePrivilegeCheck ext DebugPrivilege (RequestorMode Irp) (world s))
    eqn:Hp.
  - cbn in H. apply negb_false_iff in H.
    exists STATUS_UNSUCCESSFUL. split; [|now right].
    now apply DrvCreate_in_use.
  - exists STATUS_ACCESS_DENIED. split; [|now left].
    now apply DrvCreate_denied.
Qed.

(** [RtlZeroMemory] over the whole length of a buffer. *)
Lemma RtlZeroMemory_all (buf : list Z) :
  RtlZeroMemory buf (Z.of_nat (length buf)) = repeat 0 (length buf).
Proof.
  unfold RtlZeroMemory. rewrite Nat2Z.id, Nat.min_id.
  rewrite skipn_all. apply app_nil_r.
Qed.

(** The length computed by [DrvCreate] is the length of the array when the
    array is the one allocated for the active processors. *)
Lemma zero_length_allocated (s : DriverState World) :
  guest_state_allocated K ext s ->
  zero_length K ext s = Z.of_nat (length (g_GuestState s)).
Proof.
  unfold guest_state_allocated, zero_length, to_size_t, to_int.
  intros (Hn & Hsz & Hlt & Hlen). rewrite Hlen.
  set (n := KeQueryActiveProcessorCount ext (world s)) in *.
  assert (E1 : (n + 2 ^ 31) mod 2 ^ 32 - 2 ^ 31 = n).
  { rewrite Z.mod_small; lia. }
  rewrite E1.
  assert (E2 : n mod 2 ^ 64 = n) by (apply Z.mod_small; lia).
  rewrite E2. apply Z.mod_small. nia.
Qed.

Lemma zeroed_allocated (s : DriverState World) :
  guest_state_allocated K ext s ->
  zeroed K ext s = repeat 0 (length (g_GuestState s)).
Proof.
  intros H. unfold zeroed. rewrite (zero_length_allocated s H).
  apply RtlZeroMemory_all.
Qed.

(** The dispatcher while IOCTLs are switched off: the whole run. *)
Lemma DrvDispatchIoControl_off (Irp : IRP) (s : DriverState World) :
  g_AllowIOCTLFromUsermode s = false ->
  DrvDispatchIoControl K ext Irp s
  = (STATUS_SUCCESS, s,
     [EvIoCompleteRequest (set_IoStatus Irp STATUS_SUCCESS 0)]).
Proof.
  intros Ha. drv_unfold. rewrite Ha. reflexivity.
Qed.

(** The dispatcher while IOCTLs are allowed: the drain comes first, then
    the stack location is read, and the drain is not called again. *)
Lemma DrvDispatchIoControl_on (Irp : IRP) (s : DriverState World) :
  g_AllowIOCTLFromUsermode s = true ->
  exists rest,
    trace (DrvDispatchIoControl K ext Irp s)
    = EvPoolManagerCheckAndPerformAllocation
        :: EvIoGetCurrentIrpStackLocation :: rest /\
    calls is_drain rest = 0%nat.
Proof.
  intros Ha. drv_unfold. rewrite Ha.
  drv_cases; eexists; split; reflexivity.
Qed.

(** The terminate request: the whole run. *)
Lemma DrvDispatchIoControl_terminate (Irp : IRP) (s : DriverState World) :
  ioctl_codes_distinct K = true ->
  g_AllowIOCTLFromUsermode s = true ->
  IoControlCode (CurrentStackLocation Irp) = IOCTL_TERMINATE_VMX K ->
  DrvDispatchIoControl K ext Irp s
  = let drained :=
      PoolManagerCheckAndPerformAllocation ext (g_GuestState s) (world s) in
    let off := HvTerminateVmx ext (fst drained) (snd drained) in
    (STATUS_SUCCESS,
     Build_DriverState (g_HandleInUse s) true (fst off) (snd off),
     [EvPoolManagerCheckAndPerformAllocation;
      EvIoGetCurrentIrpStackLocation;
      EvHvTerminateVmx;
      EvIoCompleteRequest (set_IoStatus Irp STATUS_SUCCESS 0)]).
Proof.
  unfold ioctl_codes_distinct.
  intros H Ha Hc. apply andb_true_iff in H as [H H3].
  apply andb_true_iff in H as [H1 H2].
  apply negb_true_iff in H2, H3.
  drv_unfold. rewrite Ha. cbn. rewrite Hc.
  rewrite Z.eqb_sym in H2. rewrite Z.eqb_sym in H3.
  rewrite H2, H3, Z.eqb_refl. cbn. rewrite Ha. reflexivity.
Qed.

(** The request that switches IOCTLs off: the whole run. *)
Lemma DrvDispatchIoControl_disallow (Irp : IRP) (s : DriverState World) :
  ioctl_codes_distinct K = true ->
  g_AllowIOCTLFromUsermode s = true ->
  IoControlCode (CurrentStackLocation Irp)
  = IOCTL_RETURN_IRP_PENDING_PACKETS_AND_DISALLOW_IOCTL K ->
  DrvDispatchIoControl K ext Irp s
  = let drained :=
      PoolManagerCheckAndPerformAllocation ext (g_GuestState s) (world s) in
    (STATUS_SUCCESS,
     Build_DriverState (g_HandleInUse s) false (fst drained) (snd drained),
     [EvPoolManagerCheckAndPerformAllocation;
      EvIoGetCurrentIrpStackLocation;
      EvLogInfoImmediate
        "An immediate message recieved, we no longer recieve IRPs from user-mode ";
      EvIoCompleteRequest (set_IoStatus Irp STATUS_SUCCESS 0)]).
Proof.
  unfold ioctl_codes_distinct.
  intros H Ha Hc. apply andb_true_iff in H as [H H3].
  apply andb_true_iff in H as [H1 H2].
  apply negb_true_iff in H1.
  drv_unfold. rewrite Ha. cbn. rewrite Hc.
  rewrite Z.eqb_sym in H1.
  rewrite H1, Z.eqb_refl. reflexivity.
Qed.

(** Which handlers write which flag. *)
Lemma handler_keeps_in_use (mj : MajorFunction) (Irp : IRP)
      (s : DriverState World) :
  mj <> IRP_MJ_CLOSE ->
  g_HandleInUse s = true ->
  g_HandleInUse (final (handler K ext mj Irp s)) = true.
Proof.
  intros Hmj Hu. destruct mj; try congruence; cbn [handler].
  - destruct (create_admitted ext Irp s) eqn:Ha.
    + unfold create_admitted in Ha. rewrite Hu, andb_false_r in Ha. discriminate.
    + destruct (DrvCreate_rejected Irp s Ha) as (st & -> & _). exact Hu.
  - drv_unfold. exact Hu.
  - drv_unfold. exact Hu.
  - drv_unfold. drv_cases; exact Hu.
  - drv_unfold. exact Hu.
Qed.

Lemma handler_keeps_not_in_use (mj : MajorFunction) (Irp : IRP)
      (s : DriverState World) :
  mj <> IRP_MJ_CREATE ->
  g_HandleInUse s = false ->
  g_HandleInUse (final (handler K ext mj Irp s)) = false.
Proof.
  intros Hmj Hu. destruct mj; try congruence; cbn [handler].
  - reflexivity.
  - drv_unfold. exact Hu.
  - drv_unfold. exact Hu.
  - drv_unfold. drv_cases; exact Hu.
  - drv_unfold. exact Hu.
Qed.

Lemma handler_keeps_ioctl_off (mj : MajorFunction) (Irp : IRP)
      (s : DriverState World) :
  (is_create mj && create_admitted ext Irp s = false)%bool ->
  g_AllowIOCTLFromUsermode s = false ->
  g_AllowIOCTLFromUsermode (final (handler K ext mj Irp s)) = false.
Proof.
  intros Hmj Ha. destruct mj; cbn [handler]; cbn in Hmj.
  - destruct (DrvCreate_rejected Irp s Hmj) as (st & -> & _). exact Ha.
  - drv_unfold. exact Ha.
  - drv_unfold. exact Ha.
  - drv_unfold. exact Ha.
  - rewrite DrvDispatchIoControl_off by exact Ha. exact Ha.
  - drv_unfold. exact Ha.
Qed.

End DriverFacts.

(** * The claims about the driver shell *)
Section DriverClaims.

Context {World : Type}.
Variable K : Constants.
Variable ext : Externals World.

(** C1 (as amended): for every invocation of [DrvDispatchIoControl] while
    [g_AllowIOCTLFromUsermode] is true, the pool-manager drain hook
    [PoolManagerCheckAndPerformAllocation] is the first call made, before
    the IRP stack location with the control code is read, and it is called
    exactly once. *)
Theorem drain_first_when_ioctl_allowed (Irp : IRP) (s : DriverState World) :
  g_AllowIOCTLFromUsermode s = true ->
  (exists rest,
     trace (DrvDispatchIoControl K ext Irp s)
     = EvPoolManagerCheckAndPerformAllocation
         :: EvIoGetCurrentIrpStackLocation :: rest) /\
  calls is_drain (trace (DrvDispatchIoControl K ext Irp s)) = 1%nat.
Proof.
  intros Ha.
  destruct (DrvDispatchIoControl_on K ext Irp s Ha) as (rest & Ht & Hn).
  split; [eauto|]. rewrite Ht. unfold calls in *. cbn. now rewrite Hn.
Qed.

(** C2 (as amended): while [g_HandleInUse] is true, a further [DrvCreate]
    returns STATUS_UNSUCCESSFUL when the requestor holds SeDebugPrivilege
    and STATUS_ACCESS_DENIED when it does not; either way the hypervisor
    is not initialized and the driver state is unchanged.  No handler
    other than [DrvClose] clears [g_HandleInUse]; [DrvClose] clears it,
    after which a create is past the handle check. *)
Theorem single_handle_in_use (Irp : IRP) (s : DriverState World) :
  g_HandleInUse s = true ->
  result (DrvCreate K ext Irp s)
  = (if SeSinglePrivilegeCheck ext DebugPrivilege (RequestorMode Irp) (world s)
     then STATUS_UNSUCCESSFUL else STATUS_ACCESS_DENIED) /\
  calls is_HvVmxInitialize (trace (DrvCreate K ext Irp s)) = 0%nat /\
  final (DrvCreate K ext Irp s) = s /\
  (forall mj Irp', mj <> IRP_MJ_CLOSE ->
     g_HandleInUse (final (handler K ext mj Irp' s)) = true) /\
  g_HandleInUse (final (DrvClose Irp s)) = false /\
  (forall Irp',
     create_admitted ext Irp' (final (DrvClose Irp s))
     = SeSinglePrivilegeCheck ext DebugPrivilege (RequestorMode Irp') (world s)).
Proof.
  intros Hu.
  assert (Hc : result (DrvCreate K ext Irp s)
               = (if SeSinglePrivilegeCheck ext DebugPrivilege
                       (RequestorMode Irp) (world s)
                  then STATUS_UNSUCCESSFUL else STATUS_ACCESS_DENIED) /\
               calls is_HvVmxInitialize (trace (DrvCreate K ext Irp s)) = 0%nat /\
               final (DrvCreate K ext Irp s) = s).
  { destruct (SeSinglePrivilegeCheck ext DebugPrivilege (RequestorMode Irp)
                                     (world s)) eqn:Hp.
    - rewrite (DrvCreate_in_use K ext Irp s Hp Hu). now cbn.
    - rewrite (DrvCreate_denied K ext Irp s Hp). now cbn. }
  destruct Hc as (H1 & H2 & H3).
  repeat split; try assumption.
  - intros mj Irp' Hmj. now apply handler_keeps_in_use.
  - intros Irp'. unfold create_admitted. drv_unfold. cbn.
    now rewrite andb_true_r.
Qed.

(** C3 (as amended): no state persists across initialize cycles: every
    [DrvCreate] call that gets past the privilege check and the
    handle-in-use check (an initialize cycle), [g_GuestState] being the
    array of [sizeof(VIRTUAL_MACHINE_STATE) * ProcessorCount] bytes that
    [DriverEntry] allocates for the active processors, zeroes the entire
    per-processor guest-state array, for all active processors, before
    invoking [HvVmxInitialize], which is handed the all-zero array; a
    [DrvCreate] call stopped by one of the two checks zeroes nothing,
    does not call [HvVmxInitialize] and leaves the array as it is. *)
Theorem admitted_create_zeroes_guest_state (Irp : IRP) (s : DriverState World) :
  (create_admitted ext Irp s = true ->
   guest_state_allocated K ext s ->
   exists ok t1,
     trace (DrvCreate K ext Irp s)
     = [EvLogInfo "Hyperdbg's hypervisor Started...";
        EvRtlZeroMemory (Z.of_nat (length (g_GuestState s)));
        EvHvVmxInitialize (repeat 0 (length (g_GuestState s))) ok] ++ t1 /\
     calls is_HvVmxInitialize t1 = 0%nat /\
     calls is_RtlZeroMemory t1 = 0%nat) /\
  (create_admitted ext Irp s = false ->
   g_GuestState (final (DrvCreate K ext Irp s)) = g_GuestState s /\
   calls is_RtlZeroMemory (trace (DrvCreate K ext Irp s)) = 0%nat /\
   calls is_HvVmxInitialize (trace (DrvCreate K ext Irp s)) = 0%nat).
Proof.
  split.
  - intros Ha Hg. rewrite (DrvCreate_admitted K ext Irp s Ha).
    rewrite (zeroed_allocated K ext s Hg), (zero_length_allocated K ext s Hg).
    cbv zeta.
    destruct (fst (HvVmxInitialize ext _ _)).
    + destruct (fst (DebuggerInitialize ext _ _));
        eexists; eexists; (split; [reflexivity|split; reflexivity]).
    + eexists; eexists; (split; [reflexivity|split; reflexivity]).
  - intros Hr.
    destruct (DrvCreate_rejected K ext Irp s Hr) as (st & -> & _).
    repeat split.
Qed.

(** C4: for every IOCTL dispatch with control code IOCTL_TERMINATE_VMX
    while IOCTLs are allowed, [HvTerminateVmx] is called exactly once and
    the dispatcher returns STATUS_SUCCESS. *)
Theorem terminate_request_calls_HvTerminateVmx (Irp : IRP)
        (s : DriverState World) :
  ioctl_codes_distinct K = true ->
  g_AllowIOCTLFromUsermode s = true ->
  IoControlCode (CurrentStackLocation Irp) = IOCTL_TERMINATE_VMX K ->
  calls is_HvTerminateVmx (trace (DrvDispatchIoControl K ext Irp s)) = 1%nat /\
  result (DrvDispatchIoControl K ext Irp s) = STATUS_SUCCESS.
Proof.
  intros Hd Ha Hc.
  rewrite (DrvDispatchIoControl_terminate K ext Irp s Hd Ha Hc).
  split; reflexivity.
Qed.

(** C8: a [DrvCreate] call by a requestor lacking SeDebugPrivilege returns
    STATUS_ACCESS_DENIED; [g_HandleInUse], [g_AllowIOCTLFromUsermode] and
    [g_GuestState] are unchanged (the whole state is), no hypervisor
    initialization is attempted, and the only call made completes the IRP
    with STATUS_ACCESS_DENIED. *)
Theorem create_without_privilege_denied (Irp : IRP) (s : DriverState World) :
  SeSinglePrivilegeCheck ext DebugPrivilege (RequestorMode Irp) (world s) = false ->
  result (DrvCreate K ext Irp s) = STATUS_ACCESS_DENIED /\
  g_HandleInUse (final (DrvCreate K ext Irp s)) = g_HandleInUse s /\
  g_AllowIOCTLFromUsermode (final (DrvCreate K ext Irp s))
  = g_AllowIOCTLFromUsermode s /\
  g_GuestState (final (DrvCreate K ext Irp s)) = g_GuestState s /\
  final (DrvCreate K ext Irp s) = s /\
  calls is_HvVmxInitialize (trace (DrvCreate K ext Irp s)) = 0%nat /\
  calls is_RtlZeroMemory (trace (DrvCreate K ext Irp s)) = 0%nat /\
  trace (DrvCreate K ext Irp s)
  = [EvIoCompleteRequest (set_IoStatus Irp STATUS_ACCESS_DENIED 0)].
Proof.
  intros Hp. rewrite (DrvCreate_denied K ext Irp s Hp). cbn.
  repeat split; reflexivity.
Qed.

End DriverClaims.

Section DriverSequences.

Context {World : Type}.
Variable K : Constants.
Variable ext : Externals World.

(** C10: [g_HandleInUse] becomes true only in a [DrvCreate] in which both
    [HvVmxInitialize] and [DebuggerInitialize] returned TRUE; when either
    fails, [DrvCreate] returns STATUS_UNSUCCESSFUL with [g_HandleInUse]
    still false, while [g_AllowIOCTLFromUsermode] has been set and stays
    true. *)
Theorem handle_in_use_only_after_both_succeed (Irp : IRP)
        (s : DriverState World) :
  (g_HandleInUse s = false ->
   g_HandleInUse (final (DrvCreate K ext Irp s)) = true ->
   (exists gs, In (EvHvVmxInitialize gs true) (trace (DrvCreate K ext Irp s))) /\
   In (EvDebuggerInitialize true) (trace (DrvCreate K ext Irp s)) /\
   result (DrvCreate K ext Irp s) = STATUS_SUCCESS) /\
  ((exists gs, In (EvHvVmxInitialize gs false) (trace (DrvCreate K ext Irp s)))
   \/ In (EvDebuggerInitialize false) (trace (DrvCreate K ext Irp s)) ->
   result (DrvCreate K ext Irp s) = STATUS_UNSUCCESSFUL /\
   g_HandleInUse s = false /\
   g_HandleInUse (final (DrvCreate K ext Irp s)) = false /\
   g_AllowIOCTLFromUsermode (final (DrvCreate K ext Irp s)) = true) /\
  (forall mj Irp', mj <> IRP_MJ_CREATE -> g_HandleInUse s = false ->
     g_HandleInUse (final (handler K ext mj Irp' s)) = false).
Proof.
  split; [|split].
  - intros Hu Hu'.
    destruct (create_admitted ext Irp s) eqn:Hadm.
    + revert Hu'. rewrite (DrvCreate_admitted K ext Irp s Hadm). cbv zeta.
      destruct (fst (HvVmxInitialize ext _ _)); [|discriminate].
      destruct (fst (DebuggerInitialize ext _ _)); [|discriminate].
      intros _. cbn. split; [eexists; eauto 10|].
      split; [eauto 10|reflexivity].
    + destruct (DrvCreate_rejected K ext Irp s Hadm) as (st & E & _).
      rewrite E in Hu'. cbn in Hu'. congruence.
  - intros Hfail.
    destruct (create_admitted ext Irp s) eqn:Hadm.
    + assert (Hu : g_HandleInUse s = false).
      { unfold create_admitted in Hadm. apply andb_true_iff in Hadm as [_ H].
        now apply negb_true_iff in H. }
      revert Hfail. rewrite (DrvCreate_admitted K ext Irp s Hadm). cbv zeta.
      destruct (fst (HvVmxInitialize ext _ _)).
      * destruct (fst (DebuggerInitialize ext _ _)); cbn.
        -- intros [[gs H]|H]; exfalso;
             repeat (destruct H as [H|H]; [discriminate|]); exact H.
        -- intros _. now repeat split.
      * cbn. intros _. now repeat split.
    + destruct (DrvCreate_rejected K ext Irp s Hadm) as (st & E & _).
      rewrite E in Hfail. cbn in Hfail.
      destruct Hfail as [[gs [H|[]]]|[H|[]]]; discriminate.
  - intros mj Irp' Hmj Hu. now apply handler_keeps_not_in_use.
Qed.

End DriverSequences.

(** * The driver on the concrete machine *)
Section OnTheHost.

Import Scenario.

(** The states of the scenario follow one another under the handlers. *)
Example loaded_then_in_use :
  final (DrvCreate consts host_ext plain_irp (loaded true)) = in_use true.
Proof. reflexivity. Qed.

Example in_use_then_switched_off :
  final (DrvDispatchIoControl consts host_ext disallow_irp (in_use true))
  = switched_off.
Proof. reflexivity. Qed.

Example switched_off_then_stale :
  final (DrvClose plain_irp switched_off) = stale.
Proof. reflexivity. Qed.

Lemma loaded_allocated b : guest_state_allocated consts host_ext (loaded b).
Proof. unfold guest_state_allocated. cbn. lia. Qed.

(** C1, counterexample: with IOCTLs switched off the dispatcher completes
    the IRP and never calls the drain. *)
Lemma drain_skipped_when_ioctl_off : ~ drain_on_every_tick.
Proof.
  intros H.
  destruct (H Host consts host_ext terminate_irp switched_off) as [rest E].
  vm_compute in E. discriminate E.
Qed.

(** C1, the theorem at a request served while the handle is held. *)
Lemma drain_first_when_ioctl_allowed_witness :
  g_AllowIOCTLFromUsermode (in_use true) = true /\
  ((exists rest,
      trace (DrvDispatchIoControl consts host_ext terminate_irp (in_use true))
      = EvPoolManagerCheckAndPerformAllocation
          :: EvIoGetCurrentIrpStackLocation :: rest) /\
   calls is_drain
     (trace (DrvDispatchIoControl consts host_ext terminate_irp (in_use true)))
   = 1%nat).
Proof.
  split; [reflexivity|].
  apply (drain_first_when_ioctl_allowed consts host_ext terminate_irp
                                        (in_use true)).
  reflexivity.
Defined.

(** C2, counterexample: a create by a requestor without SeDebugPrivilege
    while the handle is in use returns STATUS_ACCESS_DENIED. *)
Lemma create_in_use_without_privilege : ~ create_unsuccessful_while_in_use.
Proof.
  intros H.
  destruct (H Host consts host_ext plain_irp (in_use false) eq_refl) as [E _].
  vm_compute in E. discriminate E.
Qed.

(** C2, the theorem at a second create while the handle is held. *)
Lemma single_handle_in_use_witness :
  g_HandleInUse (in_use true) = true /\
  result (DrvCreate consts host_ext plain_irp (in_use true))
  = STATUS_UNSUCCESSFUL /\
  final (DrvCreate consts host_ext plain_irp (in_use true)) = in_use true.
Proof.
  split; [reflexivity|].
  destruct (single_handle_in_use consts host_ext plain_irp (in_use true)
                                 eq_refl) as (H1 & _ & H3 & _).
  split; [exact H1 | exact H3].
Defined.

(** C3, counterexample: a create while the handle is in use leaves the
    guest-state array as it is and calls neither [RtlZeroMemory] nor
    [HvVmxInitialize]. *)
Lemma rejected_create_zeroes_nothing : ~ every_create_zeroes_guest_state.
Proof.
  intros H.
  pose proof (H Host consts host_ext plain_irp (in_use true)) as E.
  vm_compute in E. destruct E as [E|[]]. discriminate E.
Qed.

(** On an array longer than [sizeof(VIRTUAL_MACHINE_STATE) * ProcessorCount]
    an admitted create zeroes the entries of the active processors only:
    with one processor and two entries, [HvVmxInitialize] is handed eight
    zero bytes followed by the eight old ones. *)
Example admitted_create_on_longer_array :
  create_admitted host_ext plain_irp Samples.longer_array = true /\
  trace (DrvCreate consts host_ext plain_irp Samples.longer_array)
  = [EvLogInfo "Hyperdbg's hypervisor Started...";
     EvRtlZeroMemory 8;
     EvHvVmxInitialize (repeat 0 8%nat ++ repeat 1 8%nat) true;
     EvLogInfo "Hyperdbg's hypervisor loaded successfully :)";
     EvDebuggerInitialize true;
     EvLogInfo "Hyperdbg's debugger loaded successfully";
     EvIoCompleteRequest (set_IoStatus plain_irp STATUS_SUCCESS 0)].
Proof. split; reflexivity. Qed.

(** The array a turned-away create leaves behind is the one it found. *)
Example rejected_create_keeps_guest_state :
  g_GuestState (final (DrvCreate consts host_ext plain_irp (in_use true)))
  = repeat 1 16%nat.
Proof. reflexivity. Qed.

(** C3, the theorem at the first create after the driver is loaded and
    at a create turned away while the handle is held. *)
Lemma admitted_create_zeroes_guest_state_witness :
  (create_admitted host_ext plain_irp (loaded true) = true /\
   guest_state_allocated consts host_ext (loaded true) /\
   exists ok t1,
     trace (DrvCreate consts host_ext plain_irp (loaded true))
     = [EvLogInfo "Hyperdbg's hypervisor Started...";
        EvRtlZeroMemory 16;
        EvHvVmxInitialize (repeat 0 16%nat) ok] ++ t1 /\
     calls is_HvVmxInitialize t1 = 0%nat /\
     calls is_RtlZeroMemory t1 = 0%nat) /\
  (create_admitted host_ext plain_irp (in_use true) = false /\
   g_GuestState (final (DrvCreate consts host_ext plain_irp (in_use true)))
   = repeat 1 16%nat).
Proof.
  split.
  - split; [reflexivity|]. split; [apply loaded_allocated|].
    apply (admitted_create_zeroes_guest_state consts host_ext plain_irp
                                              (loaded true)).
    + reflexivity.
    + unfold guest_state_allocated. cbn. lia.
  - split; [reflexivity|].
    apply (admitted_create_zeroes_guest_state consts host_ext plain_irp
                                              (in_use true)).
    reflexivity.
Defined.

(** C4, the theorem at a terminate request while the handle is held. *)
Lemma terminate_request_calls_HvTerminateVmx_witness :
  ioctl_codes_distinct consts = true /\
  g_AllowIOCTLFromUsermode (in_use true) = true /\
  calls is_HvTerminateVmx
    (trace (DrvDispatchIoControl consts host_ext terminate_irp (in_use true)))
  = 1%nat /\
  result (DrvDispatchIoControl consts host_ext terminate_irp (in_use true))
  = STATUS_SUCCESS.
Proof.
  split; [reflexivity|]. split; [reflexivity|].
  apply (terminate_request_calls_HvTerminateVmx consts host_ext terminate_irp
                                                (in_use true));
    reflexivity.
Defined.

(** C8, the theorem at a create by a requestor without the privilege. *)
Lemma create_without_privilege_denied_witness :
  result (DrvCreate consts host_ext plain_irp (loaded false))
  = STATUS_ACCESS_DENIED /\
  final (DrvCreate consts host_ext plain_irp (loaded false)) = loaded false.
Proof.
  destruct (create_without_privilege_denied consts host_ext plain_irp
              (loaded false) eq_refl) as (H1 & _ & _ & _ & H5 & _).
  split; [exact H1 | exact H5].
Defined.

(** C10, the theorem at a create that succeeds and at one whose
    [HvVmxInitialize] fails. *)
Lemma handle_in_use_only_after_both_succeed_witness :
  ((exists gs,
      In (EvHvVmxInitialize gs true)
         (trace (DrvCreate consts host_ext plain_irp (loaded true)))) /\
   In (EvDebuggerInitialize true)
      (trace (DrvCreate consts host_ext plain_irp (loaded true))) /\
   result (DrvCreate consts host_ext plain_irp (loaded true)) = STATUS_SUCCESS)
  /\
  (result (DrvCreate consts host_ext plain_irp stale) = STATUS_UNSUCCESSFUL /\
   g_HandleInUse stale = false /\
   g_HandleInUse (final (DrvCreate consts host_ext plain_irp stale)) = false /\
   g_AllowIOCTLFromUsermode (final (DrvCreate consts host_ext plain_irp stale))
   = true).
Proof.
  split.
  - apply (handle_in_use_only_after_both_succeed consts host_ext plain_irp
                                                 (loaded true));
      reflexivity.
  - apply (handle_in_use_only_after_both_succeed consts host_ext plain_irp
                                                 stale).
    left. exists (repeat 0 16%nat). cbn. auto.
Defined.

End OnTheHost.

(** * The breakpoint engine *)
Section BreakpointClaims.

Import Breakpoints.

Lemma ClearBreakpoint_inactive (a : Z) (g : Guest) :
  active a g = false -> ClearBreakpoint a g = (NotFound, g).
Proof.
  unfold active, ClearBreakpoint.
  destruct (descriptors g !! a) as [d|]; [|reflexivity].
  now intros ->.
Qed.

(** After a clear, the address has no active breakpoint. *)
Lemma ClearBreakpoint_deactivates (a : Z) (g : Guest) :
  active a (snd (ClearBreakpoint a g)) = false.
Proof.
  unfold ClearBreakpoint.
  destruct (descriptors g !! a) as [d|] eqn:Hd.
  - destruct (enabled d) eqn:He; cbn.
    + unfold active. cbn. now rewrite lookup_delete_eq.
    + unfold active. now rewrite Hd.
  - cbn. unfold active. now rewrite Hd.
Qed.

(** C5: [ClearBreakpoint] on an address with no active breakpoint returns
    the not-found result and leaves the whole state, guest memory
    included, unchanged; in particular clearing again after a clear is
    such a no-op. *)
Theorem clear_without_breakpoint_is_noop (a : Z) (g g0 : Guest) :
  active a g = false ->
  fst (ClearBreakpoint a g) = NotFound /\
  snd (ClearBreakpoint a g) = g /\
  memory (snd (ClearBreakpoint a g)) = memory g /\
  ClearBreakpoint a (snd (ClearBreakpoint a g0))
  = (NotFound, snd (ClearBreakpoint a g0)).
Proof.
  intros Hna. rewrite (ClearBreakpoint_inactive a g Hna). cbn.
  repeat split.
  apply ClearBreakpoint_inactive, ClearBreakpoint_deactivates.
Qed.

(** C5, the theorem at an address that never had a breakpoint and at a
    breakpoint that is set and then cleared twice. *)
Lemma clear_without_breakpoint_is_noop_witness :
  active 0x2000 sample = false /\
  ClearBreakpoint 0x2000 sample = (NotFound, sample) /\
  fst (ClearBreakpoint 0x1000 (SetSoftwareBreakpoint 7 0x1000 sample)) = Cleared /\
  ClearBreakpoint 0x1000
    (snd (ClearBreakpoint 0x1000 (SetSoftwareBreakpoint 7 0x1000 sample)))
  = (NotFound,
     snd (ClearBreakpoint 0x1000 (SetSoftwareBreakpoint 7 0x1000 sample))).
Proof.
  split; [reflexivity|].
  destruct (clear_without_breakpoint_is_noop 0x2000 sample
              (SetSoftwareBreakpoint 7 0x1000 sample) eq_refl)
    as (H1 & H2 & _ & _).
  split; [now rewrite (surjective_pairing (ClearBreakpoint 0x2000 sample)), H1, H2|].
  split; [reflexivity|].
  apply (clear_without_breakpoint_is_noop 0x1000 sample
           (SetSoftwareBreakpoint 7 0x1000 sample) eq_refl).
Defined.

End BreakpointClaims.

(** * The EPT manager *)
Section EptClaims.

Import Ept.

Variable gpa : Z.
Variable h0 : EptPageTableHierarchy.

Lemma HookPage_rights_kept (mode : HookMode) (h : EptPageTableHierarchy) :
  rights_kept gpa h0 h -> rights_kept gpa h0 (HookPage gpa mode h).
Proof.
  unfold rights_kept, HookPage. intros Hk.
  destruct (entry_rights h gpa) as [r|] eqn:Hr; [|now rewrite Hr]. cbn.
  destruct (saved_rights h !! page_of gpa) as [r0|] eqn:Hs.
  - rewrite Hs. exact Hk.
  - rewrite lookup_insert_eq. congruence.
Qed.

Lemma UnhookPage_rights_kept (h : EptPageTableHierarchy) :
  rights_kept gpa h0 h -> rights_kept gpa h0 (UnhookPage gpa h).
Proof.
  unfold rights_kept, UnhookPage. intros Hk.
  destruct (saved_rights h !! page_of gpa) as [r0|] eqn:Hs.
  - cbn. rewrite lookup_delete_eq, Hk. unfold entry_rights. cbn.
    now rewrite lookup_insert_eq.
  - rewrite Hs. exact Hk.
Qed.

Lemma calls_on_rights_kept (cs : list Call) (h : EptPageTableHierarchy) :
  rights_kept gpa h0 h -> rights_kept gpa h0 (calls_on gpa cs h).
Proof.
  unfold calls_on. revert h.
  induction cs as [|c cs IH]; intros h Hk; cbn; [exact Hk|].
  apply IH. destruct c; cbn.
  - now apply HookPage_rights_kept.
  - now apply UnhookPage_rights_kept.
Qed.

(** An unhook leaves the page unhooked with the saved rights in its
    entry. *)
Lemma UnhookPage_restores (h : EptPageTableHierarchy) :
  rights_kept gpa h0 h ->
  entry_rights (UnhookPage gpa h) gpa = entry_rights h0 gpa.
Proof.
  intros Hk. apply UnhookPage_rights_kept in Hk.
  unfold rights_kept in Hk.
  assert (Hn : saved_rights (UnhookPage gpa h) !! page_of gpa = None).
  { unfold UnhookPage.
    destruct (saved_rights h !! page_of gpa) eqn:Hs; cbn; [|exact Hs].
    apply lookup_delete_eq. }
  now rewrite Hn in Hk.
Qed.

(** C6: for every sequence of [HookPage] and [UnhookPage] calls on one
    guest-physical address that starts with the page not hooked, the
    access rights of its EPT entry after a following [UnhookPage] equal
    the rights before the first call; while the page is hooked the saved
    state of the hierarchy holds those rights, and the unhook writes the
    saved rights back. *)
Theorem unhook_restores_original_rights (cs : list Call) :
  saved_rights h0 !! page_of gpa = None ->
  entry_rights (calls_on gpa (cs ++ [CallUnhookPage]) h0) gpa
  = entry_rights h0 gpa /\
  (forall r, saved_rights (calls_on gpa cs h0) !! page_of gpa = Some r ->
     entry_rights h0 gpa = Some r /\
     entry_rights (UnhookPage gpa (calls_on gpa cs h0)) gpa = Some r).
Proof.
  intros Hfree.
  assert (Hk0 : rights_kept gpa h0 h0).
  { unfold rights_kept. now rewrite Hfree. }
  pose proof (calls_on_rights_kept cs h0 Hk0) as Hk.
  split.
  - unfold calls_on. rewrite fold_left_app. cbn.
    now apply UnhookPage_restores.
  - intros r Hr. split.
    + unfold rights_kept in Hk. now rewrite Hr in Hk.
    + unfold UnhookPage, entry_rights. rewrite Hr. cbn.
      now rewrite lookup_insert_eq.
Qed.

End EptClaims.

Section EptOnSample.

Import Ept.

(** C6, the theorem at a page hooked for execution, then for writes,
    unhooked and hooked again. *)
Lemma unhook_restores_original_rights_witness :
  saved_rights sample !! page_of 0x5000 = None /\
  entry_rights
    (calls_on 0x5000
       ([CallHookPage ExecuteTrap; CallHookPage WriteTrap; CallUnhookPage;
         CallHookPage ReadTrap] ++ [CallUnhookPage]) sample) 0x5000
  = Some full_access /\
  entry_rights
    (calls_on 0x5000 [CallHookPage ExecuteTrap; CallHookPage WriteTrap] sample)
    0x5000
  = Some {| ReadAccess := true; WriteAccess := false; ExecuteAccess := false |}.
Proof.
  split; [reflexivity|].
  split; [|reflexivity].
  destruct (unhook_restores_original_rights 0x5000 sample
              [CallHookPage ExecuteTrap; CallHookPage WriteTrap; CallUnhookPage;
               CallHookPage ReadTrap] eq_refl) as [H _].
  rewrite H. reflexivity.
Defined.

End EptOnSample.

(** * The event/hook registry *)
Section RegistryClaims.

Import HookRegistry.
Local Open Scope nat_scope.

Variable sess : nat.

Lemma existsb_count (p : EventHookEntry -> bool) (l : list EventHookEntry) :
  existsb p l = (0 <? length (List.filter p l)).
Proof.
  induction l as [|e l IH]; cbn; [reflexivity|].
  destruct (p e); cbn; [reflexivity|exact IH].
Qed.

(** A rejected registration changes nothing. *)
Lemma Register_taken (c : Condition) (a : Action) (sc : Scope) (r : Registry) :
  0 < count c sc r -> Register sess c a sc r = (Rejected, r).
Proof.
  unfold Register, count. intros H. rewrite existsb_count.
  apply Nat.ltb_lt in H. now rewrite H.
Qed.

(** The entries for a (condition, scope) after one [Register] call. *)
Lemma count_Register (c c' : Condition) (a : Action) (sc sc' : Scope)
      (r : Registry) :
  count c sc (snd (Register sess c' a sc' r))
  = if bool_decide (c' = c) && bool_decide (sc' = sc) && (count c sc r =? 0)
    then 1 else count c sc r.
Proof.
  unfold Register. rewrite existsb_count. fold (count c' sc' r).
  destruct (0 <? count c' sc' r) eqn:Hex; cbn [snd].
  - destruct (bool_decide_reflect (c' = c)) as [->|];
      [|reflexivity].
    destruct (bool_decide_reflect (sc' = sc)) as [->|];
      [|reflexivity].
    apply Nat.ltb_lt in Hex. cbn [andb].
    destruct (count c sc r); [lia|reflexivity].
  - apply Nat.ltb_ge in Hex.
    unfold count at 1. cbn [entries List.filter].
    unfold registered_for at 1. cbn [condition scope].
    fold (count c sc r).
    destruct (bool_decide_reflect (c' = c)) as [->|];
      [|reflexivity].
    destruct (bool_decide_reflect (sc' = sc)) as [->|];
      [|reflexivity].
    cbn [andb length]. fold (count c sc r).
    assert (E : count c sc r = 0) by lia.
    now rewrite E.
Qed.

(** A sequence of [Register] calls from a registry that holds at most one
    entry per (condition, scope). *)
Lemma count_register_all (reqs : list (Condition * Action * Scope))
      (r : Registry) (c : Condition) (sc : Scope) :
  count c sc r <= 1 ->
  count c sc (register_all sess reqs r)
  = if (0 <? count c sc r) || requested c sc reqs then 1 else 0.
Proof.
  revert r. unfold register_all.
  induction reqs as [|[[c' a] sc'] reqs IH]; intros r Hle; cbn.
  - rewrite orb_false_r. destruct (count c sc r) as [|[|n]]; cbn; [easy|easy|lia].
  - rewrite IH.
    + rewrite count_Register.
      destruct (bool_decide (c' = c)); cbn; [|reflexivity].
      destruct (bool_decide (sc' = sc)); cbn; [|reflexivity].
      destruct (count c sc r) as [|[|n]]; cbn; [easy|easy|lia].
    + rewrite count_Register.
      destruct (_ && _ && _); [lia|exact Hle].
Qed.

(** C7: registering a hook whose (condition, scope) equals that of a
    registered hook is rejected and leaves the registry unchanged; after
    any sequence of [Register] calls on an empty registry, the registry
    holds exactly one entry for every (condition, scope) that was
    registered, and none for any other. *)
Theorem one_entry_per_condition_and_scope
        (reqs : list (Condition * Action * Scope))
        (c : Condition) (a : Action) (sc : Scope) :
  count c sc (register_all sess reqs empty)
  = (if requested c sc reqs then 1 else 0) /\
  (requested c sc reqs = true ->
   Register sess c a sc (register_all sess reqs empty)
   = (Rejected, register_all sess reqs empty)) /\
  (forall r, 0 < count c sc r -> Register sess c a sc r = (Rejected, r)).
Proof.
  assert (Hc : count c sc (register_all sess reqs empty)
               = if requested c sc reqs then 1 else 0).
  { rewrite count_register_all by (cbn; lia). reflexivity. }
  split; [exact Hc|]. split.
  - intros Hreq. apply Register_taken. rewrite Hc, Hreq. lia.
  - intros r. apply Register_taken.
Qed.

End RegistryClaims.

Section RegistryOnSample.

Import HookRegistry.

(** C7, the theorem at the same MSR hook registered twice. *)
Lemma one_entry_per_condition_and_scope_witness :
  let msr := {| exit_reason := 32; qualifier := 0xC0000082 |} in
  let reqs := [(msr, Log, GlobalScope); (msr, Break, ProcessorScope 1);
               (msr, Break, GlobalScope)] in
  requested msr GlobalScope reqs = true /\
  count msr GlobalScope (register_all 1%nat reqs empty) = 1%nat /\
  Register 1%nat msr Redirect GlobalScope (register_all 1%nat reqs empty)
  = (Rejected, register_all 1%nat reqs empty).
Proof.
  cbv zeta. split; [reflexivity|].
  destruct (one_entry_per_condition_and_scope 1%nat
              [({| exit_reason := 32; qualifier := 0xC0000082 |}, Log, GlobalScope);
               ({| exit_reason := 32; qualifier := 0xC0000082 |}, Break,
                ProcessorScope 1);
               ({| exit_reason := 32; qualifier := 0xC0000082 |}, Break,
                GlobalScope)]
              {| exit_reason := 32; qualifier := 0xC0000082 |}
              Redirect GlobalScope) as (H1 & H2 & _).
  split; [exact H1 | exact (H2 eq_refl)].
Defined.

End RegistryOnSample.

(** * More about the handlers *)

Section MoreDriverFacts.

Context {World : Type}.
Variable K : Constants.
Variable ext : Externals World.

(** X1: every handler completes its IRP exactly once, with the status it
    returns and [Information = 0], unless it returns STATUS_PENDING, in
    which case it does not complete the IRP at all. *)
Theorem handler_completes_irp_once (mj : MajorFunction) (Irp : IRP)
        (s : DriverState World) :
  List.filter is_IoCompleteRequest (trace (handler K ext mj Irp s))
  = if result (handler K ext mj Irp s) =? STATUS_PENDING then []
    else [EvIoCompleteRequest
            (set_IoStatus Irp (result (handler K ext mj Irp s)) 0)].
Proof.
  destruct mj; cbn [handler].
  - destruct (create_admitted ext Irp s) eqn:Hadm.
    + rewrite (DrvCreate_admitted K ext Irp s Hadm). cbv zeta.
      destruct (fst (HvVmxInitialize ext _ _)); [|reflexivity].
      destruct (fst (DebuggerInitialize ext _ _)); reflexivity.
    + destruct (DrvCreate_rejected K ext Irp s Hadm) as (st & -> & [-> | ->]);
        reflexivity.
  - reflexivity.
  - reflexivity.
  - reflexivity.
  - drv_unfold. drv_leaf_cases; first [reflexivity | cbn in *; discriminate].
  - reflexivity.
Qed.


(** X2: [HvTerminateVmx] is called by no handler but the IOCTL dispatcher,
    and by it only while IOCTLs are allowed and for the control code
    IOCTL_TERMINATE_VMX; in particular closing the handle does not
    terminate VMX. *)
Theorem HvTerminateVmx_only_on_request (mj : MajorFunction) (Irp : IRP)
        (s : DriverState World) :
  calls is_HvTerminateVmx (trace (handler K ext mj Irp s)) <> 0%nat ->
  mj = IRP_MJ_DEVICE_CONTROL /\
  g_AllowIOCTLFromUsermode s = true /\
  IoControlCode (CurrentStackLocation Irp) = IOCTL_TERMINATE_VMX K.
Proof.
  destruct mj; cbn [handler]; intros H; try (exfalso; apply H; reflexivity).
  - exfalso. apply H.
    destruct (create_admitted ext Irp s) eqn:Hadm.
    + rewrite (DrvCreate_admitted K ext Irp s Hadm). cbv zeta.
      destruct (fst (HvVmxInitialize ext _ _)); [|reflexivity].
      destruct (fst (DebuggerInitialize ext _ _)); reflexivity.
    + now destruct (DrvCreate_rejected K ext Irp s Hadm) as (st & -> & _).
  - revert H. drv_unfold.
    drv_leaf_cases; intros H; try (exfalso; apply H; reflexivity).
    all: split; [reflexivity|]; split; [reflexivity|]; now apply Z.eqb_eq.
Qed.

(** X3: a notification is registered ([LogRegisterIrpBasedNotification] or
    [LogRegisterEventBasedNotification] is called) only by an
    IOCTL_REGISTER_EVENT request served while IOCTLs are allowed, whose
    input buffer is at least SIZEOF_REGISTER_EVENT long and not NULL, and
    whose type is IRP_BASED or EVENT_BASED. *)
Theorem notification_only_when_valid (mj : MajorFunction) (Irp : IRP)
        (s : DriverState World) :
  calls is_LogRegister (trace (handler K ext mj Irp s)) <> 0%nat ->
  mj = IRP_MJ_DEVICE_CONTROL /\
  g_AllowIOCTLFromUsermode s = true /\
  IoControlCode (CurrentStackLocation Irp) = IOCTL_REGISTER_EVENT K /\
  SIZEOF_REGISTER_EVENT K <= InputBufferLength (CurrentStackLocation Irp) /\
  exists buf, SystemBuffer Irp = Some buf /\
              (Type_ buf = IRP_BASED K \/ Type_ buf = EVENT_BASED K).
Proof.
  destruct mj; cbn [handler]; intros H; try (exfalso; apply H; reflexivity).
  - exfalso. apply H.
    destruct (create_admitted ext Irp s) eqn:Hadm.
    + rewrite (DrvCreate_admitted K ext Irp s Hadm). cbv zeta.
      destruct (fst (HvVmxInitialize ext _ _)); [|reflexivity].
      destruct (fst (DebuggerInitialize ext _ _)); reflexivity.
    + now destruct (DrvCreate_rejected K ext Irp s Hadm) as (st & -> & _).
  - revert H. drv_unfold.
    drv_leaf_cases; intros H; try (exfalso; apply H; reflexivity).
    all: split; [reflexivity|]; split; [reflexivity|];
      split; [now apply Z.eqb_eq|]; split; [now apply Z.ltb_ge|];
      eexists; split; [reflexivity|].
    all: first [left; now apply Z.eqb_eq | right; now apply Z.eqb_eq].
Qed.

(** X4: while IOCTLs are allowed, an IOCTL_REGISTER_EVENT request that
    fails the checks (input buffer shorter than SIZEOF_REGISTER_EVENT,
    NULL system buffer, or a type that is neither IRP_BASED nor
    EVENT_BASED) returns STATUS_INVALID_PARAMETER, registers nothing and
    leaves the two flags as they were. *)
Theorem register_event_invalid_parameter (Irp : IRP) (s : DriverState World) :
  g_AllowIOCTLFromUsermode s = true ->
  IoControlCode (CurrentStackLocation Irp) = IOCTL_REGISTER_EVENT K ->
  (InputBufferLength (CurrentStackLocation Irp) < SIZEOF_REGISTER_EVENT K \/
   SystemBuffer Irp = None \/
   exists buf, SystemBuffer Irp = Some buf /\
               Type_ buf <> IRP_BASED K /\ Type_ buf <> EVENT_BASED K) ->
  result (DrvDispatchIoControl K ext Irp s) = STATUS_INVALID_PARAMETER /\
  calls is_LogRegister (trace (DrvDispatchIoControl K ext Irp s)) = 0%nat /\
  g_HandleInUse (final (DrvDispatchIoControl K ext Irp s)) = g_HandleInUse s /\
  g_AllowIOCTLFromUsermode (final (DrvDispatchIoControl K ext Irp s)) = true.
Proof.
  intros Ha Hc Hbad. drv_unfold. rewrite Ha. cbn. rewrite Hc, Z.eqb_refl.
  destruct (InputBufferLength (CurrentStackLocation Irp)
            <? SIZEOF_REGISTER_EVENT K) eqn:Hlen; cbn.
  { now rewrite Ha. }
  apply Z.ltb_ge in Hlen.
  destruct Hbad as [Hlt | [Hnull | (buf & Hbuf & Hn1 & Hn2)]].
  - lia.
  - rewrite Hnull. cbn. now rewrite Ha.
  - rewrite Hbuf. apply Z.eqb_neq in Hn1, Hn2. rewrite Hn1, Hn2. cbn.
    now rewrite Ha.
Qed.

(** X5: a control code that is none of the three known ones, served while
    IOCTLs are allowed, returns STATUS_NOT_IMPLEMENTED; VMX is not
    terminated, nothing is registered and the two flags stay as they
    were. *)
Theorem unknown_ioctl_not_implemented (Irp : IRP) (s : DriverState World) :
  g_AllowIOCTLFromUsermode s = true ->
  IoControlCode (CurrentStackLocation Irp) <> IOCTL_REGISTER_EVENT K ->
  IoControlCode (CurrentStackLocation Irp)
  <> IOCTL_RETURN_IRP_PENDING_PACKETS_AND_DISALLOW_IOCTL K ->
  IoControlCode (CurrentStackLocation Irp) <> IOCTL_TERMINATE_VMX K ->
  result (DrvDispatchIoControl K ext Irp s) = STATUS_NOT_IMPLEMENTED /\
  calls is_HvTerminateVmx (trace (DrvDispatchIoControl K ext Irp s)) = 0%nat /\
  calls is_LogRegister (trace (DrvDispatchIoControl K ext Irp s)) = 0%nat /\
  g_HandleInUse (final (DrvDispatchIoControl K ext Irp s)) = g_HandleInUse s /\
  g_AllowIOCTLFromUsermode (final (DrvDispatchIoControl K ext Irp s)) = true.
Proof.
  intros Ha H1 H2 H3. apply Z.eqb_neq in H1, H2, H3.
  drv_unfold. rewrite Ha. cbn. rewrite H1, H2, H3. cbn. now rewrite Ha.
Qed.

(** X6: the dispatcher returns STATUS_PENDING, leaving the IRP
    uncompleted, only when one of the two notification routines returned
    STATUS_PENDING for it. *)
Theorem pending_only_from_notification (Irp : IRP) (s : DriverState World) :
  result (DrvDispatchIoControl K ext Irp s) = STATUS_PENDING ->
  (In (EvLogRegisterIrpBasedNotification STATUS_PENDING)
      (trace (DrvDispatchIoControl K ext Irp s)) \/
   In (EvLogRegisterEventBasedNotification STATUS_PENDING)
      (trace (DrvDispatchIoControl K ext Irp s))) /\
  calls is_IoCompleteRequest (trace (DrvDispatchIoControl K ext Irp s)) = 0%nat.
Proof.
  drv_unfold.
  drv_leaf_cases; intros H; try discriminate H; try (cbn in *; discriminate).
  all: try (match goal with
            | Hn : negb (_ =? _) = true |- _ =>
                rewrite H in Hn; discriminate Hn
            end).
  all: rewrite H; cbn; split; [tauto | reflexivity].
Qed.

End MoreDriverFacts.

Section DriverInvariants.

Context {World : Type}.
Variable K : Constants.
Variable ext : Externals World.

(** What the status of a create says about the handle flag. *)
Lemma DrvCreate_success_iff (Irp : IRP) (s : DriverState World) :
  (result (DrvCreate K ext Irp s) = STATUS_SUCCESS <->
   g_HandleInUse s = false /\
   g_HandleInUse (final (DrvCreate K ext Irp s)) = true) /\
  (result (DrvCreate K ext Irp s) <> STATUS_SUCCESS ->
   g_HandleInUse (final (DrvCreate K ext Irp s)) = g_HandleInUse s).
Proof.
  destruct (create_admitted ext Irp s) eqn:Hadm.
  - assert (Hu : g_HandleInUse s = false).
    { unfold create_admitted in Hadm. apply andb_true_iff in Hadm as [_ H].
      now apply negb_true_iff in H. }
    rewrite (DrvCreate_admitted K ext Irp s Hadm). cbv zeta.
    destruct (fst (HvVmxInitialize ext _ _)).
    + destruct (fst (DebuggerInitialize ext _ _)); cbn; rewrite Hu.
      * split; [tauto | intros H; now elim H].
      * split; [|reflexivity]. split; [discriminate | intros [_ H]; discriminate].
    + cbn. rewrite Hu.
      split; [|reflexivity]. split; [discriminate | intros [_ H]; discriminate].
  - destruct (DrvCreate_rejected K ext Irp s Hadm) as (st & -> & Hst). cbn.
    split; [|reflexivity]. split.
    + intros ->. destruct Hst; discriminate.
    + intros [H1 H2]. congruence.
Qed.

(** X7: [g_AllowIOCTLFromUsermode] goes from true to false only in the
    dispatcher, on the control code
    IOCTL_RETURN_IRP_PENDING_PACKETS_AND_DISALLOW_IOCTL, and from false to
    true only in a [DrvCreate] that is past the privilege check and the
    handle-in-use check. *)
Theorem ioctl_flag_changes (mj : MajorFunction) (Irp : IRP)
        (s : DriverState World) :
  (g_AllowIOCTLFromUsermode s = true ->
   g_AllowIOCTLFromUsermode (final (handler K ext mj Irp s)) = false ->
   mj = IRP_MJ_DEVICE_CONTROL /\
   IoControlCode (CurrentStackLocation Irp)
   = IOCTL_RETURN_IRP_PENDING_PACKETS_AND_DISALLOW_IOCTL K) /\
  (g_AllowIOCTLFromUsermode s = false ->
   g_AllowIOCTLFromUsermode (final (handler K ext mj Irp s)) = true ->
   mj = IRP_MJ_CREATE /\ create_admitted ext Irp s = true).
Proof.
  split.
  - intros Ha. destruct mj; cbn [handler].
    + destruct (create_admitted ext Irp s) eqn:Hadm.
      * rewrite (DrvCreate_admitted K ext Irp s Hadm). cbv zeta.
        destruct (fst (HvVmxInitialize ext _ _)); [|discriminate].
        destruct (fst (DebuggerInitialize ext _ _)); discriminate.
      * destruct (DrvCreate_rejected K ext Irp s Hadm) as (st & -> & _).
        cbn. congruence.
    + drv_unfold. cbn. congruence.
    + drv_unfold. cbn. congruence.
    + drv_unfold. cbn. congruence.
    + drv_unfold. rewrite Ha.
      drv_leaf_cases; intros H; try congruence.
      all: split; [reflexivity | now apply Z.eqb_eq].
    + drv_unfold. cbn. congruence.
  - intros Ha Ha'.
    destruct (is_create mj && create_admitted ext Irp s) eqn:Hc.
    + apply andb_true_iff in Hc as [Hc1 Hc2]. destruct mj; try discriminate.
      now split.
    + rewrite (handler_keeps_ioctl_off K ext mj Irp s Hc Ha) in Ha'.
      discriminate.
Qed.

(** X8: [DrvCreate] returns STATUS_SUCCESS, STATUS_UNSUCCESSFUL or
    STATUS_ACCESS_DENIED; it returns STATUS_ACCESS_DENIED exactly when the
    privilege check fails, and STATUS_SUCCESS exactly when it takes the
    handle ([g_HandleInUse] goes from false to true). *)
Theorem DrvCreate_status (Irp : IRP) (s : DriverState World) :
  (result (DrvCreate K ext Irp s) = STATUS_SUCCESS \/
   result (DrvCreate K ext Irp s) = STATUS_UNSUCCESSFUL \/
   result (DrvCreate K ext Irp s) = STATUS_ACCESS_DENIED) /\
  (result (DrvCreate K ext Irp s) = STATUS_ACCESS_DENIED <->
   SeSinglePrivilegeCheck ext DebugPrivilege (RequestorMode Irp) (world s)
   = false) /\
  (result (DrvCreate K ext Irp s) = STATUS_SUCCESS <->
   g_HandleInUse s = false /\
   g_HandleInUse (final (DrvCreate K ext Irp s)) = true).
Proof.
  split; [|split; [|apply DrvCreate_success_iff]].
  - destruct (create_admitted ext Irp s) eqn:Hadm.
    + rewrite (DrvCreate_admitted K ext Irp s Hadm). cbv zeta.
      destruct (fst (HvVmxInitialize ext _ _)); [|now right; left].
      destruct (fst (DebuggerInitialize ext _ _)); [now left|now right; left].
    + destruct (DrvCreate_rejected K ext Irp s Hadm) as (st & -> & [-> | ->]);
        cbn; auto.
  - destruct (SeSinglePrivilegeCheck ext DebugPrivilege (RequestorMode Irp)
                                     (world s)) eqn:Hp.
    + split; [|discriminate]. intros H. exfalso. revert H.
      destruct (g_HandleInUse s) eqn:Hu.
      * rewrite (DrvCreate_in_use K ext Irp s Hp Hu). discriminate.
      * assert (Hadm : create_admitted ext Irp s = true).
        { unfold create_admitted. now rewrite Hp, Hu. }
        rewrite (DrvCreate_admitted K ext Irp s Hadm). cbv zeta.
        destruct (fst (HvVmxInitialize ext _ _)); [|discriminate].
        destruct (fst (DebuggerInitialize ext _ _)); discriminate.
    + rewrite (DrvCreate_denied K ext Irp s Hp). now split.
Qed.

(** One request keeps the count of handles given out equal to the flag. *)
Lemma held_step_serve (mj : MajorFunction) (Irp : IRP) (s : DriverState World) :
  held_step (if g_HandleInUse s then 1 else 0)%nat (serve K ext mj Irp s)
  = (if g_HandleInUse (final (handler K ext mj Irp s)) then 1 else 0)%nat.
Proof.
  unfold held_step, successful_create, serve.
  cbn [out_mj out_status].
  destruct mj; cbn [is_close is_create andb handler].
  - destruct (DrvCreate_success_iff Irp s) as [Hiff Hne].
    destruct (result (DrvCreate K ext Irp s) =? STATUS_SUCCESS) eqn:Hst.
    + apply Z.eqb_eq, Hiff in Hst as [-> ->]. reflexivity.
    + apply Z.eqb_neq, Hne in Hst. now rewrite Hst.
  - reflexivity.
  - reflexivity.
  - reflexivity.
  - destruct (g_HandleInUse s) eqn:Hu.
    + pose proof (handler_keeps_in_use K ext IRP_MJ_DEVICE_CONTROL Irp s) as H.
      cbn [handler] in H. now rewrite H.
    + pose proof (handler_keeps_not_in_use K ext IRP_MJ_DEVICE_CONTROL Irp s)
        as H.
      cbn [handler] in H. now rewrite H.
  - reflexivity.
Qed.

Lemma held_run (reqs : list (MajorFunction * IRP)) (s : DriverState World) :
  held (if g_HandleInUse s then 1 else 0)%nat (run K ext reqs s)
  = (if g_HandleInUse (run_final K ext reqs s) then 1 else 0)%nat.
Proof.
  revert s. induction reqs as [|[mj Irp] reqs IH]; intros s; [reflexivity|].
  cbn [run run_final]. unfold held in *. cbn [fold_left].
  rewrite held_step_serve. apply IH.
Qed.

(** X10: in every sequence of requests that starts with no handle in use,
    the number of creates that returned STATUS_SUCCESS since the last
    close is at most one, and it is one exactly when [g_HandleInUse] is
    true at the end. *)
Theorem at_most_one_handle_held (reqs : list (MajorFunction * IRP))
        (s : DriverState World) :
  g_HandleInUse s = false ->
  (held 0 (run K ext reqs s) <= 1)%nat /\
  (held 0 (run K ext reqs s) = 1%nat <->
   g_HandleInUse (run_final K ext reqs s) = true).
Proof.
  intros Hu. pose proof (held_run reqs s) as H. rewrite Hu in H. rewrite H.
  destruct (g_HandleInUse (run_final K ext reqs s)); split; try lia;
    split; congruence.
Qed.

End DriverInvariants.

(** * Runs the I/O manager can deliver *)
Section DeliveredRuns.

Context {World : Type}.
Variable K : Constants.
Variable ext : Externals World.

Lemma run_app (a b : list (MajorFunction * IRP)) (s : DriverState World) :
  run K ext (a ++ b) s = run K ext a s ++ run K ext b (run_final K ext a s).
Proof.
  revert s. induction a as [|[mj Irp] a IH]; intros s; [reflexivity|].
  cbn [app run run_final]. rewrite IH. reflexivity.
Qed.

Lemma deliverable_app (n : nat) (os1 os2 : list (@Outcome World)) :
  deliverable n (os1 ++ os2)
  = deliverable n os1 && deliverable (handles_after n os1) os2.
Proof.
  revert n. induction os1 as [|o os1 IH]; intros n; [reflexivity|].
  cbn [app deliverable]. rewrite IH. unfold handles_after. cbn [fold_left].
  now rewrite andb_assoc.
Qed.

(** The handlers that touch nothing. *)
Lemma handler_leaves_state (mj : MajorFunction) (Irp : IRP)
      (s : DriverState World) :
  mj = IRP_MJ_READ \/ mj = IRP_MJ_WRITE \/ mj = IRP_MJ_other ->
  final (handler K ext mj Irp s) = s.
Proof. intros [-> | [-> | ->]]; reflexivity. Qed.

(** One delivered request keeps the number of open handles equal to the
    flag. *)
Lemma handles_step_serve (mj : MajorFunction) (Irp : IRP)
      (s : DriverState World) (n : nat) :
  n = (if g_HandleInUse s then 1 else 0)%nat ->
  delivered n (serve K ext mj Irp s) = true ->
  handles_step n (serve K ext mj Irp s)
  = (if g_HandleInUse (final (handler K ext mj Irp s)) then 1 else 0)%nat.
Proof.
  intros Hn Hd. unfold handles_step, delivered, serve in *.
  cbn [out_mj out_status] in *.
  destruct mj.
  - cbn [handler]. destruct (DrvCreate_success_iff K ext Irp s) as [Hiff Hne].
    destruct (result (DrvCreate K ext Irp s) =? STATUS_SUCCESS) eqn:Hst.
    + apply Z.eqb_eq, Hiff in Hst as [Hu Hu']. rewrite Hu in Hn.
      now rewrite Hu', Hn.
    + apply Z.eqb_neq, Hne in Hst. now rewrite Hst.
  - assert (Hpos : (0 < n)%nat)
      by (destruct n; [cbn in Hd; discriminate Hd | lia]).
    cbn. destruct (g_HandleInUse s); subst n; [reflexivity | lia].
  - now rewrite handler_leaves_state by auto.
  - now rewrite handler_leaves_state by auto.
  - destruct (g_HandleInUse s) eqn:Hu.
    + now rewrite (handler_keeps_in_use K ext IRP_MJ_DEVICE_CONTROL Irp s).
    + now rewrite (handler_keeps_not_in_use K ext IRP_MJ_DEVICE_CONTROL Irp s).
  - now rewrite handler_leaves_state by auto.
Qed.

Lemma handles_after_run (reqs : list (MajorFunction * IRP))
      (s : DriverState World) (n : nat) :
  n = (if g_HandleInUse s then 1 else 0)%nat ->
  deliverable n (run K ext reqs s) = true ->
  handles_after n (run K ext reqs s)
  = (if g_HandleInUse (run_final K ext reqs s) then 1 else 0)%nat.
Proof.
  revert s n. induction reqs as [|[mj Irp] reqs IH]; intros s n Hn Hd.
  - exact Hn.
  - cbn [run run_final deliverable] in *.
    apply andb_true_iff in Hd as [Hd1 Hd2].
    unfold handles_after. cbn [fold_left].
    apply IH; [|exact Hd2].
    rewrite (handles_step_serve mj Irp s n Hn Hd1). reflexivity.
Qed.

(** While the open handle, if any, has IOCTLs switched off and no create
    returns STATUS_SUCCESS, every IOCTL that is delivered is idle. *)
Lemma delivered_ioctl_idle (reqs : list (MajorFunction * IRP))
      (s : DriverState World) (n : nat) :
  n = (if g_HandleInUse s then 1 else 0)%nat ->
  (g_HandleInUse s = true -> g_AllowIOCTLFromUsermode s = false) ->
  deliverable n (run K ext reqs s) = true ->
  forallb (fun o => negb (successful_create o)) (run K ext reqs s) = true ->
  Forall (fun o => is_device_control (out_mj o) = true -> idle o)
         (run K ext reqs s).
Proof.
  revert s n. induction reqs as [|[mj Irp] reqs IH]; intros s n Hn Hoff Hd Hq.
  - constructor.
  - cbn [run deliverable forallb] in *.
    apply andb_true_iff in Hd as [Hd1 Hd2].
    apply andb_true_iff in Hq as [Hq1 Hq2].
    apply negb_true_iff in Hq1.
    pose proof (handles_step_serve mj Irp s n Hn Hd1) as Hn'.
    assert (Hhead : is_device_control mj = true -> idle (serve K ext mj Irp s)).
    { intros Hdc. destruct mj; try discriminate.
      assert (Hpos : (0 < n)%nat)
        by (destruct n; [cbn in Hd1; discriminate Hd1 | lia]).
      assert (Hu : g_HandleInUse s = true).
      { destruct (g_HandleInUse s); [reflexivity | lia]. }
      unfold idle, serve.
      cbn [handler out_status out_after out_before out_trace out_irp].
      rewrite (DrvDispatchIoControl_off K ext Irp s (Hoff Hu)). now cbn. }
    constructor; [exact Hhead|].
    apply (IH _ _ Hn'); [|exact Hd2|exact Hq2].
    unfold serve. cbn [out_after].
    intros Hu'. destruct mj.
    + cbn [handler] in *.
      destruct (DrvCreate_success_iff K ext Irp s) as [_ Hne].
      unfold successful_create, serve in Hq1. cbn in Hq1.
      apply Z.eqb_neq in Hq1. specialize (Hne Hq1).
      rewrite Hne in Hu'.
      assert (Hrej : create_admitted ext Irp s = false).
      { unfold create_admitted. now rewrite Hu', andb_false_r. }
      destruct (DrvCreate_rejected K ext Irp s Hrej) as (st & -> & _).
      cbn. exact (Hoff Hu').
    + cbn in Hu'. discriminate Hu'.
    + rewrite handler_leaves_state in * by auto. exact (Hoff Hu').
    + rewrite handler_leaves_state in * by auto. exact (Hoff Hu').
    + specialize (Hhead eq_refl). destruct Hhead as (_ & Hsame & _).
      unfold serve in Hsame. cbn [out_after out_before] in Hsame.
      rewrite Hsame in *. exact (Hoff Hu').
    + rewrite handler_leaves_state in * by auto. exact (Hoff Hu').
Qed.

(** C9: on every run of requests that the I/O manager can deliver to the
    loaded driver, once an
    IOCTL_RETURN_IRP_PENDING_PACKETS_AND_DISALLOW_IOCTL request has been
    served [g_AllowIOCTLFromUsermode] is false, and every later
    [DrvDispatchIoControl] call returns STATUS_SUCCESS, makes no call but
    the completion of its IRP (no handler, no pool drain) and leaves the
    driver state unchanged, for as long as no [DrvCreate] returns
    STATUS_SUCCESS; a [DrvCreate] that returns STATUS_SUCCESS has set the
    flag again. *)
Theorem ioctl_off_until_successful_create_delivered
        (pre post : list (MajorFunction * IRP)) (Irp0 : IRP)
        (s : DriverState World) :
  ioctl_codes_distinct K = true ->
  g_HandleInUse s = false ->
  IoControlCode (CurrentStackLocation Irp0)
  = IOCTL_RETURN_IRP_PENDING_PACKETS_AND_DISALLOW_IOCTL K ->
  deliverable 0 (run K ext (pre ++ (IRP_MJ_DEVICE_CONTROL, Irp0) :: post) s)
  = true ->
  g_AllowIOCTLFromUsermode
    (run_final K ext (pre ++ [(IRP_MJ_DEVICE_CONTROL, Irp0)]) s) = false /\
  (forallb (fun o => negb (successful_create o))
     (run K ext post
          (run_final K ext (pre ++ [(IRP_MJ_DEVICE_CONTROL, Irp0)]) s)) = true ->
   Forall (fun o => is_device_control (out_mj o) = true -> idle o)
     (run K ext post
          (run_final K ext (pre ++ [(IRP_MJ_DEVICE_CONTROL, Irp0)]) s))) /\
  (forall Irp s',
     result (DrvCreate K ext Irp s') = STATUS_SUCCESS ->
     g_AllowIOCTLFromUsermode (final (DrvCreate K ext Irp s')) = true).
Proof.
  intros Hdist Hu Hc Hd.
  change ((IRP_MJ_DEVICE_CONTROL, Irp0) :: post)
    with ([(IRP_MJ_DEVICE_CONTROL, Irp0)] ++ post) in Hd.
  rewrite app_assoc, run_app, deliverable_app in Hd.
  apply andb_true_iff in Hd as [Hd1 Hd2].
  set (s1 := run_final K ext (pre ++ [(IRP_MJ_DEVICE_CONTROL, Irp0)]) s) in *.
  assert (Hn0 : 0%nat = (if g_HandleInUse s then 1 else 0)%nat)
    by now rewrite Hu.
  pose proof (handles_after_run _ s 0%nat Hn0 Hd1) as Hn1. fold s1 in Hn1.
  (* the request that switches IOCTLs off came through an open handle *)
  rewrite run_app, deliverable_app in Hd1.
  apply andb_true_iff in Hd1 as [Hdpre Hd0].
  pose proof (handles_after_run pre s 0%nat Hn0 Hdpre) as Hnpre.
  set (s0 := run_final K ext pre s) in *.
  cbn [run deliverable] in Hd0. apply andb_true_iff in Hd0 as [Hd0 _].
  rewrite Hnpre in Hd0.
  assert (Hu0 : g_HandleInUse s0 = true).
  { destruct (g_HandleInUse s0); [reflexivity | cbn in Hd0; discriminate Hd0]. }
  assert (Hs1 : s1 = final (DrvDispatchIoControl K ext Irp0 s0)).
  { unfold s1, s0. clear. revert s.
    induction pre as [|[mj Irp] pre IH]; intros s; [reflexivity|].
    cbn [app run_final]. apply IH. }
  assert (Hoff : g_AllowIOCTLFromUsermode s1 = false).
  { rewrite Hs1. destruct (g_AllowIOCTLFromUsermode s0) eqn:Ha.
    - now rewrite (DrvDispatchIoControl_disallow K ext Irp0 s0 Hdist Ha Hc).
    - now rewrite (DrvDispatchIoControl_off K ext Irp0 s0 Ha). }
  split; [exact Hoff|]. split.
  - intros Hq.
    apply (delivered_ioctl_idle post s1 _ Hn1); [|exact Hd2|exact Hq].
    intros _. exact Hoff.
  - intros Irp s' Hst.
    destruct (create_admitted ext Irp s') eqn:Hadm.
    + revert Hst. rewrite (DrvCreate_admitted K ext Irp s' Hadm). cbv zeta.
      destruct (fst (HvVmxInitialize ext _ _)); [|discriminate].
      destruct (fst (DebuggerInitialize ext _ _)); [|discriminate].
      reflexivity.
    + destruct (DrvCreate_rejected K ext Irp s' Hadm) as (st & E & [-> | ->]);
        rewrite E in Hst; discriminate Hst.
Qed.

End DeliveredRuns.

Section DeliveredOnTheHost.

Import Scenario.

(** C9, the theorem at a run in which the handle is closed after the
    request that switches IOCTLs off, and the next create fails because
    VMX was left on. *)
Lemma ioctl_off_until_successful_create_delivered_witness :
  let pre := [(IRP_MJ_CREATE, plain_irp)] in
  let post := [(IRP_MJ_DEVICE_CONTROL, terminate_irp);
               (IRP_MJ_CREATE, plain_irp);
               (IRP_MJ_DEVICE_CONTROL, disallow_irp);
               (IRP_MJ_CLOSE, plain_irp);
               (IRP_MJ_CREATE, plain_irp)] in
  deliverable 0
    (run consts host_ext
         (pre ++ (IRP_MJ_DEVICE_CONTROL, disallow_irp) :: post) (loaded true))
  = true /\
  g_AllowIOCTLFromUsermode
    (run_final consts host_ext
       (pre ++ [(IRP_MJ_DEVICE_CONTROL, disallow_irp)]) (loaded true)) = false /\
  Forall (fun o => is_device_control (out_mj o) = true -> idle o)
    (run consts host_ext post
       (run_final consts host_ext
          (pre ++ [(IRP_MJ_DEVICE_CONTROL, disallow_irp)]) (loaded true))).
Proof.
  cbv zeta. split; [reflexivity|].
  destruct (ioctl_off_until_successful_create_delivered consts host_ext
              [(IRP_MJ_CREATE, plain_irp)]
              [(IRP_MJ_DEVICE_CONTROL, terminate_irp);
               (IRP_MJ_CREATE, plain_irp);
               (IRP_MJ_DEVICE_CONTROL, disallow_irp);
               (IRP_MJ_CLOSE, plain_irp);
               (IRP_MJ_CREATE, plain_irp)]
              disallow_irp (loaded true) eq_refl eq_refl eq_refl eq_refl)
    as (H1 & H2 & _).
  split; [exact H1 | exact (H2 eq_refl)].
Defined.

End DeliveredOnTheHost.

(** * Loading the driver *)
Section LoaderFacts.

Import Loader.

Context {World : Type}.
Variable K : Constants.
Variable ext : Externals World.
Variable L : LoaderExternals World.

(** The loop of [DriverEntry] over the first [n] slots. *)
Lemma clear_slots_lookup (tbl : list PDRIVER_DISPATCH) (n i : nat) :
  (n <= length tbl)%nat ->
  fold_left (fun t Index => <[Index := ptr_DrvUnsupported]> t) (seq 0 n) tbl !! i
  = if decide (i < n)%nat then Some ptr_DrvUnsupported else tbl !! i.
Proof.
  induction n as [|n IH]; intros Hn.
  - cbn. destruct (decide (i < 0)%nat); [lia|reflexivity].
  - rewrite seq_S, fold_left_app. cbn [fold_left Nat.add].
    rewrite list_lookup_insert, IH by lia.
    assert (Hlen : length (fold_left
                     (fun t Index => <[Index := ptr_DrvUnsupported]> t)
                     (seq 0 n) tbl) = length tbl).
    { clear. generalize (seq 0 n). intros l. revert tbl.
      induction l as [|a l IHl]; intros tbl; [reflexivity|].
      cbn. rewrite IHl. apply length_insert. }
    rewrite Hlen.
    repeat case_decide; try reflexivity; try lia.
Qed.

Lemma set_major_functions_lookup (tbl : list PDRIVER_DISPATCH) (i : nat) :
  length tbl = 28%nat ->
  set_major_functions tbl !! i
  = if decide (i = 14)%nat then Some ptr_DrvDispatchIoControl
    else if decide (i = 4)%nat then Some ptr_DrvWrite
    else if decide (i = 3)%nat then Some ptr_DrvRead
    else if decide (i = 0)%nat then Some ptr_DrvCreate
    else if decide (i = 2)%nat then Some ptr_DrvClose
    else if decide (i < 27)%nat then Some ptr_DrvUnsupported
    else tbl !! i.
Proof.
  intros Hlen. unfold set_major_functions. cbv zeta.
  change (Z.to_nat Wdm.IRP_MJ_MAXIMUM_FUNCTION) with 27%nat.
  change (Z.to_nat Wdm.IRP_MJ_CLOSE) with 2%nat.
  change (Z.to_nat Wdm.IRP_MJ_CREATE) with 0%nat.
  change (Z.to_nat Wdm.IRP_MJ_READ) with 3%nat.
  change (Z.to_nat Wdm.IRP_MJ_WRITE) with 4%nat.
  change (Z.to_nat Wdm.IRP_MJ_DEVICE_CONTROL) with 14%nat.
  rewrite !list_lookup_insert, !length_insert.
  rewrite clear_slots_lookup by lia.
  assert (Hl : length (fold_left
                  (fun t Index => <[Index := ptr_DrvUnsupported]> t)
                  (seq 0 27) tbl) = 28%nat).
  { rewrite <- Hlen. generalize (seq 0 27). intros l. clear. revert tbl.
    induction l as [|a l IHl]; intros tbl; [reflexivity|].
    cbn. rewrite IHl. apply length_insert. }
  rewrite Hl.
  repeat case_decide; try reflexivity; lia.
Qed.

Lemma set_major_functions_length (tbl : list PDRIVER_DISPATCH) :
  length (set_major_functions tbl) = length tbl.
Proof.
  unfold set_major_functions. cbv zeta. rewrite !length_insert.
  generalize (seq 0 (Z.to_nat Wdm.IRP_MJ_MAXIMUM_FUNCTION)).
  intros l. revert tbl.
  induction l as [|a l IHl]; intros tbl; [reflexivity|].
  cbn. rewrite IHl. apply length_insert.
Qed.

(** The slot of a major function code after the assignments. *)
Lemma set_major_functions_handler (tbl : list PDRIVER_DISPATCH) (code : Z) :
  length tbl = 28%nat ->
  0 <= code < Wdm.IRP_MJ_MAXIMUM_FUNCTION ->
  exists p,
    set_major_functions tbl !! Z.to_nat code = Some p /\
    call_dispatch K ext p = Some (handler K ext (major_function_of code)).
Proof.
  intros Hlen Hc. unfold Wdm.IRP_MJ_MAXIMUM_FUNCTION in Hc.
  rewrite (set_major_functions_lookup tbl _ Hlen).
  unfold major_function_of, Wdm.IRP_MJ_CREATE, Wdm.IRP_MJ_CLOSE,
    Wdm.IRP_MJ_READ, Wdm.IRP_MJ_WRITE, Wdm.IRP_MJ_DEVICE_CONTROL.
  repeat case_decide;
    repeat match goal with
           | |- context [code =? ?c] =>
               destruct (Z.eqb_spec code c); try lia
           end;
    eexists; (split; [reflexivity|reflexivity]).
Qed.

(** The two ways in which [DriverEntry] returns. *)
Lemma DriverEntry_returned (D D' : DRIVER_OBJECT) (w w' : World)
      (st : NTSTATUS) (g : option (list Z)) (dev : option DEVICE_OBJECT) :
  fst (DriverEntry K ext L D w) = Returned st g D' dev w' ->
  let lg := log_setup L w in
  let size := guest_state_bytes K ext (fst lg) in
  let a := ExAllocatePoolWithTag L size (fst lg) in
  (fst a = None /\ st = Wdm.STATUS_INSUFFICIENT_RESOURCES /\ g = None /\
   D' = D /\ dev = None /\
   List.filter is_LdIoCreateDevice (snd (DriverEntry K ext L D w)) = []) \/
  (exists pool d0,
     fst a = Some pool /\
     fst (IoCreateDevice L (snd a)) = (st, Some d0) /\
     g = Some (RtlZeroMemory (map pool (seq 0 (Z.to_nat size))) size) /\
     D' = (if st =? STATUS_SUCCESS
           then {| MajorFunctionTable :=
                     set_major_functions (MajorFunctionTable D);
                   DriverUnload := Some ptr_DrvUnload |}
           else D) /\
     dev = Some {| Flags := Z.lor (Flags d0) Wdm.DO_BUFFERED_IO |}).
Proof.
  unfold DriverEntry. cbv zeta.
  destruct (fst (ExAllocatePoolWithTag L _ _)) as [pool|] eqn:Ha.
  - destruct (IoCreateDevice L _) as [[st0 [d0|]] w0] eqn:Hd; cbn.
    + intros [= <- <- <- <- <-]. right. exists pool, d0.
      repeat split; reflexivity.
    + discriminate.
  - cbn. intros [= <- <- <- <- <-]. left.
    repeat split; try reflexivity.
    rewrite !List.filter_app. cbn.
    unfold log_setup.
    destruct (UseDbgPrintInsteadOfUsermodeMessageTracking L); [reflexivity|].
    cbn. destruct (fst (LogInitialize L w)); reflexivity.
Qed.

(** X11: when [DriverEntry] returns STATUS_SUCCESS on a driver object with
    a 28-slot table, the slot of every major function code below
    IRP_MJ_MAXIMUM_FUNCTION calls the handler that serves that code
    ([DrvCreate], [DrvClose], [DrvRead], [DrvWrite] and
    [DrvDispatchIoControl] for their own codes, [DrvUnsupported] for every
    other), the unload routine is [DrvUnload], and the device object has
    DO_BUFFERED_IO set. *)
Theorem DriverEntry_installs_handlers (D D' : DRIVER_OBJECT) (w w' : World)
        (g : option (list Z)) (dev : option DEVICE_OBJECT) :
  fst (DriverEntry K ext L D w) = Returned STATUS_SUCCESS g D' dev w' ->
  length (MajorFunctionTable D) = 28%nat ->
  (forall code, 0 <= code < Wdm.IRP_MJ_MAXIMUM_FUNCTION ->
     exists p,
       MajorFunctionTable D' !! Z.to_nat code = Some p /\
       call_dispatch K ext p = Some (handler K ext (major_function_of code))) /\
  DriverUnload D' = Some ptr_DrvUnload /\
  (exists d, dev = Some d /\ Z.testbit (Flags d) 2 = true).
Proof.
  intros Hr Hlen.
  destruct (DriverEntry_returned D D' w w' _ g dev Hr)
    as [(_ & Hst & _) | (pool & d0 & _ & _ & _ & -> & ->)].
  - discriminate Hst.
  - rewrite Z.eqb_refl. cbn [MajorFunctionTable DriverUnload].
    split; [|split].
    + intros code Hc. now apply set_major_functions_handler.
    + reflexivity.
    + eexists. split; [reflexivity|]. cbn [Flags].
      rewrite Z.lor_spec. change (Z.testbit Wdm.DO_BUFFERED_IO 2) with true.
      apply orb_true_r.
Qed.

(** X12: the loop of [DriverEntry] stops one slot short: however
    [DriverEntry] ends, the last slot of a 28-slot table, the one of code
    IRP_MJ_MAXIMUM_FUNCTION, is not written and keeps what the I/O manager
    had put there. *)
Theorem DriverEntry_leaves_last_slot (D : DRIVER_OBJECT) (w : World) :
  length (MajorFunctionTable D) = 28%nat ->
  MajorFunctionTable (driver_object_of (fst (DriverEntry K ext L D w)))
    !! Z.to_nat Wdm.IRP_MJ_MAXIMUM_FUNCTION
  = MajorFunctionTable D !! Z.to_nat Wdm.IRP_MJ_MAXIMUM_FUNCTION.
Proof.
  intros Hlen. unfold DriverEntry. cbv zeta.
  destruct (fst (ExAllocatePoolWithTag L _ _)) as [pool|]; [|reflexivity].
  assert (Hs : set_major_functions (MajorFunctionTable D)
                 !! Z.to_nat Wdm.IRP_MJ_MAXIMUM_FUNCTION
               = MajorFunctionTable D !! Z.to_nat Wdm.IRP_MJ_MAXIMUM_FUNCTION).
  { now rewrite (set_major_functions_lookup _ _ Hlen). }
  destruct (snd (fst (IoCreateDevice L _))); cbn;
    destruct (_ =? STATUS_SUCCESS); cbn; auto.
Qed.

(** The array [DriverEntry] leaves behind. *)
Lemma DriverEntry_array (D D' : DRIVER_OBJECT) (w w' : World)
        (st : NTSTATUS) (gs : list Z) (dev : option DEVICE_OBJECT) :
  fst (DriverEntry K ext L D w) = Returned st (Some gs) D' dev w' ->
  0 <= KeQueryActiveProcessorCount ext (fst (log_setup L w)) < 2 ^ 31 ->
  0 <= sizeof_VIRTUAL_MACHINE_STATE K ->
  sizeof_VIRTUAL_MACHINE_STATE K
  * KeQueryActiveProcessorCount ext (fst (log_setup L w)) < 2 ^ 64 ->
  gs = repeat 0 (length gs) /\
  Z.of_nat (length gs)
  = sizeof_VIRTUAL_MACHINE_STATE K
    * KeQueryActiveProcessorCount ext (fst (log_setup L w)) /\
  (KeQueryActiveProcessorCount ext w'
   = KeQueryActiveProcessorCount ext (fst (log_setup L w)) ->
   guest_state_allocated K ext (after_entry gs w')).
Proof.
  intros Hr Hn Hsz Hlt.
  destruct (DriverEntry_returned D D' w w' st _ dev Hr)
    as [(_ & _ & Hg & _) | (pool & d0 & _ & _ & Hg & _)];
    [discriminate Hg|].
  injection Hg as ->.
  set (n := KeQueryActiveProcessorCount ext (fst (log_setup L w))) in *.
  assert (Hsize : guest_state_bytes K ext (fst (log_setup L w))
                  = sizeof_VIRTUAL_MACHINE_STATE K * n).
  { unfold guest_state_bytes, to_size_t. fold n.
    rewrite (Z.mod_small n (2 ^ 32)) by lia.
    rewrite (Z.mod_small n (2 ^ 64)) by lia.
    apply Z.mod_small. nia. }
  rewrite Hsize.
  set (buf := map pool (seq 0 (Z.to_nat (sizeof_VIRTUAL_MACHINE_STATE K * n)))).
  assert (Hlen : Z.of_nat (length buf) = sizeof_VIRTUAL_MACHINE_STATE K * n).
  { unfold buf. rewrite length_map, length_seq. apply Z2Nat.id. nia. }
  assert (Hz : RtlZeroMemory buf (sizeof_VIRTUAL_MACHINE_STATE K * n)
               = repeat 0 (length buf)).
  { rewrite <- Hlen. apply RtlZeroMemory_all. }
  rewrite Hz, repeat_length.
  split; [reflexivity|]. split; [exact Hlen|].
  intros Hsame. unfold guest_state_allocated, after_entry. cbn.
  rewrite repeat_length, Hsame. fold n. repeat split; try lia; nia.
Qed.

(** X13: when [DriverEntry] returns with the guest-state array allocated,
    the array has [sizeof(VIRTUAL_MACHINE_STATE) * ProcessorCount] bytes,
    all zero; with the processor count unchanged it is the array
    [DrvCreate] expects. *)
Theorem DriverEntry_guest_state (D D' : DRIVER_OBJECT) (w w' : World)
        (st : NTSTATUS) (gs : list Z) (dev : option DEVICE_OBJECT) :
  fst (DriverEntry K ext L D w) = Returned st (Some gs) D' dev w' ->
  0 <= KeQueryActiveProcessorCount ext (fst (log_setup L w)) < 2 ^ 31 ->
  0 <= sizeof_VIRTUAL_MACHINE_STATE K ->
  sizeof_VIRTUAL_MACHINE_STATE K
  * KeQueryActiveProcessorCount ext (fst (log_setup L w)) < 2 ^ 64 ->
  gs = repeat 0 (length gs) /\
  Z.of_nat (length gs)
  = sizeof_VIRTUAL_MACHINE_STATE K
    * KeQueryActiveProcessorCount ext (fst (log_setup L w)) /\
  (KeQueryActiveProcessorCount ext w'
   = KeQueryActiveProcessorCount ext (fst (log_setup L w)) ->
   guest_state_allocated K ext (after_entry gs w')).
Proof.
  intros Hr Hn Hsz Hlt.
  exact (DriverEntry_array D D' w w' st gs dev Hr Hn Hsz Hlt).
Qed.

(** X16: the first [DrvCreate] after [DriverEntry], by a requestor that
    holds SeDebugPrivilege, is past both guards, and the array it hands to
    [HvVmxInitialize] is the array [DriverEntry] left: the zeroing in
    [DrvCreate] covers exactly that array and changes none of its
    bytes. *)
Theorem first_create_after_entry (D D' : DRIVER_OBJECT) (w w' : World)
        (st : NTSTATUS) (gs : list Z) (dev : option DEVICE_OBJECT)
        (Irp : IRP) :
  fst (DriverEntry K ext L D w) = Returned st (Some gs) D' dev w' ->
  0 <= KeQueryActiveProcessorCount ext (fst (log_setup L w)) < 2 ^ 31 ->
  0 <= sizeof_VIRTUAL_MACHINE_STATE K ->
  sizeof_VIRTUAL_MACHINE_STATE K
  * KeQueryActiveProcessorCount ext (fst (log_setup L w)) < 2 ^ 64 ->
  KeQueryActiveProcessorCount ext w'
  = KeQueryActiveProcessorCount ext (fst (log_setup L w)) ->
  SeSinglePrivilegeCheck ext DebugPrivilege (RequestorMode Irp) w' = true ->
  exists ok t1,
    trace (DrvCreate K ext Irp (after_entry gs w'))
    = [EvLogInfo "Hyperdbg's hypervisor Started...";
       EvRtlZeroMemory (Z.of_nat (length gs));
       EvHvVmxInitialize gs ok] ++ t1.
Proof.
  intros Hr Hn Hsz Hlt Hsame Hp.
  destruct (DriverEntry_array D D' w w' st gs dev Hr Hn Hsz Hlt)
    as (Hz & _ & Hg).
  specialize (Hg Hsame).
  assert (Hadm : create_admitted ext Irp (after_entry gs w') = true).
  { unfold create_admitted, after_entry. cbn. now rewrite Hp. }
  rewrite (DrvCreate_admitted K ext Irp _ Hadm).
  rewrite (zeroed_allocated K ext _ Hg), (zero_length_allocated K ext _ Hg).
  cbn [g_GuestState after_entry]. rewrite <- Hz. cbv zeta.
  destruct (fst (HvVmxInitialize ext _ _)).
  - destruct (fst (DebuggerInitialize ext _ _));
      eexists; eexists; reflexivity.
  - eexists; eexists; reflexivity.
Qed.

(** X14: when [DriverEntry] returns with [g_GuestState] NULL, the status
    is STATUS_INSUFFICIENT_RESOURCES, the driver object is untouched and
    [IoCreateDevice] was never called. *)
Theorem DriverEntry_out_of_memory (D D' : DRIVER_OBJECT) (w w' : World)
        (st : NTSTATUS) (dev : option DEVICE_OBJECT) :
  fst (DriverEntry K ext L D w) = Returned st None D' dev w' ->
  st = Wdm.STATUS_INSUFFICIENT_RESOURCES /\ D' = D /\ dev = None /\
  List.filter is_LdIoCreateDevice (snd (DriverEntry K ext L D w)) = [].
Proof.
  intros Hr.
  destruct (DriverEntry_returned D D' w w' st _ dev Hr)
    as [(_ & Hst & _ & HD & Hdev & Ht) | (pool & d0 & _ & _ & Hg & _)];
    [now repeat split | discriminate Hg].
Qed.

(** X15: when the pool gives the array and [IoCreateDevice] leaves the
    [DeviceObject] pointer NULL, [DriverEntry] does not return the status
    of [IoCreateDevice]: it stores through the NULL pointer. *)
Theorem DriverEntry_null_device (D : DRIVER_OBJECT) (w : World) :
  let lg := log_setup L w in
  let a := ExAllocatePoolWithTag L (guest_state_bytes K ext (fst lg)) (fst lg) in
  fst a <> None ->
  snd (fst (IoCreateDevice L (snd a))) = None ->
  exists g D' w', fst (DriverEntry K ext L D w) = NullDereference g D' w'.
Proof.
  cbv zeta. intros Ha Hd. unfold DriverEntry. cbv zeta.
  destruct (fst (ExAllocatePoolWithTag L _ _)) as [pool|]; [|congruence].
  rewrite Hd. cbn. eauto.
Qed.

End LoaderFacts.

(** * More of the driver on the concrete machine *)
Section MoreOnTheHost.

Import Scenario Samples Loader.

(** X2, the theorem at a terminate request. *)
Lemma HvTerminateVmx_only_on_request_witness :
  calls is_HvTerminateVmx
    (trace (handler consts host_ext IRP_MJ_DEVICE_CONTROL terminate_irp
                    (in_use true))) <> 0%nat /\
  g_AllowIOCTLFromUsermode (in_use true) = true /\
  IoControlCode (CurrentStackLocation terminate_irp) = IOCTL_TERMINATE_VMX consts.
Proof.
  split; [vm_compute; lia|].
  apply (HvTerminateVmx_only_on_request consts host_ext IRP_MJ_DEVICE_CONTROL
           terminate_irp (in_use true)).
  vm_compute; lia.
Defined.

(** X3, the theorem at a well-formed registration. *)
Lemma notification_only_when_valid_witness :
  calls is_LogRegister
    (trace (handler consts host_ext IRP_MJ_DEVICE_CONTROL register_irp
                    (in_use true))) <> 0%nat /\
  SIZEOF_REGISTER_EVENT consts
  <= InputBufferLength (CurrentStackLocation register_irp).
Proof.
  split; [vm_compute; lia|].
  apply (notification_only_when_valid consts host_ext IRP_MJ_DEVICE_CONTROL
           register_irp (in_use true)).
  vm_compute; lia.
Defined.

(** X4, the theorem at a registration with an empty buffer. *)
Lemma register_event_invalid_parameter_witness :
  g_AllowIOCTLFromUsermode (in_use true) = true /\
  InputBufferLength (CurrentStackLocation short_register_irp)
  < SIZEOF_REGISTER_EVENT consts /\
  result (DrvDispatchIoControl consts host_ext short_register_irp (in_use true))
  = STATUS_INVALID_PARAMETER.
Proof.
  split; [reflexivity|]. split; [reflexivity|].
  apply (register_event_invalid_parameter consts host_ext short_register_irp
           (in_use true)).
  - reflexivity.
  - reflexivity.
  - left. reflexivity.
Defined.

(** X5, the theorem at control code 0. *)
Lemma unknown_ioctl_not_implemented_witness :
  g_AllowIOCTLFromUsermode (in_use true) = true /\
  result (DrvDispatchIoControl consts host_ext plain_irp (in_use true))
  = STATUS_NOT_IMPLEMENTED.
Proof.
  split; [reflexivity|].
  apply (unknown_ioctl_not_implemented consts host_ext plain_irp (in_use true));
    [reflexivity | vm_compute; discriminate | vm_compute; discriminate
     | vm_compute; discriminate].
Defined.

(** X6, the theorem at an IRP-based registration, which the host leaves
    pending. *)
Lemma pending_only_from_notification_witness :
  result (DrvDispatchIoControl consts host_ext register_irp (in_use true))
  = STATUS_PENDING /\
  calls is_IoCompleteRequest
    (trace (DrvDispatchIoControl consts host_ext register_irp (in_use true)))
  = 0%nat.
Proof.
  split; [reflexivity|].
  apply (pending_only_from_notification consts host_ext register_irp
           (in_use true)).
  reflexivity.
Defined.

(** X7, the theorem at the request that switches IOCTLs off and at the
    create that switches them on. *)
Lemma ioctl_flag_changes_witness :
  (IRP_MJ_DEVICE_CONTROL = IRP_MJ_DEVICE_CONTROL /\
   IoControlCode (CurrentStackLocation disallow_irp)
   = IOCTL_RETURN_IRP_PENDING_PACKETS_AND_DISALLOW_IOCTL consts) /\
  (IRP_MJ_CREATE = IRP_MJ_CREATE /\
   create_admitted host_ext plain_irp (loaded true) = true).
Proof.
  split.
  - apply (ioctl_flag_changes consts host_ext IRP_MJ_DEVICE_CONTROL
             disallow_irp (in_use true)); reflexivity.
  - apply (ioctl_flag_changes consts host_ext IRP_MJ_CREATE plain_irp
             (loaded true)); reflexivity.
Defined.

(** X10, the theorem at two creates, a close and a create. *)
Lemma at_most_one_handle_held_witness :
  g_HandleInUse (loaded true) = false /\
  (held 0 (run consts host_ext
               [(IRP_MJ_CREATE, plain_irp); (IRP_MJ_CREATE, plain_irp);
                (IRP_MJ_CLOSE, plain_irp); (IRP_MJ_CREATE, plain_irp)]
               (loaded true)) <= 1)%nat.
Proof.
  split; [reflexivity|].
  apply (at_most_one_handle_held consts host_ext
           [(IRP_MJ_CREATE, plain_irp); (IRP_MJ_CREATE, plain_irp);
            (IRP_MJ_CLOSE, plain_irp); (IRP_MJ_CREATE, plain_irp)]
           (loaded true)).
  reflexivity.
Defined.

(** X11, the theorem at a load that succeeds. *)
Lemma DriverEntry_installs_handlers_witness :
  length (MajorFunctionTable fresh_driver_object) = 28%nat /\
  DriverUnload
    (driver_object_of
       (fst (DriverEntry consts host_ext host_loader fresh_driver_object
                         (world (loaded true)))))
  = Some ptr_DrvUnload.
Proof.
  split; [reflexivity|].
  edestruct (DriverEntry_installs_handlers consts host_ext host_loader
               fresh_driver_object) with (w := world (loaded true))
    as (_ & H & _); [reflexivity | reflexivity | exact H].
Defined.

(** X12, the theorem at a load that succeeds. *)
Lemma DriverEntry_leaves_last_slot_witness :
  length (MajorFunctionTable fresh_driver_object) = 28%nat /\
  MajorFunctionTable
    (driver_object_of
       (fst (DriverEntry consts host_ext host_loader fresh_driver_object
                         (world (loaded true)))))
    !! 27%nat
  = Some (ptr_preset 27).
Proof.
  split; [reflexivity|].
  exact (DriverEntry_leaves_last_slot consts host_ext host_loader
           fresh_driver_object (world (loaded true)) eq_refl).
Defined.

(** X13, the theorem at a load that succeeds on the two-processor host. *)
Lemma DriverEntry_guest_state_witness :
  guest_state_allocated consts host_ext
    (after_entry (repeat 0 16%nat) (world (loaded true))).
Proof.
  edestruct (DriverEntry_guest_state consts host_ext host_loader
               fresh_driver_object) with (w := world (loaded true))
    as (_ & _ & H); [reflexivity | cbn; lia | cbn; lia | cbn; lia |].
  exact (H eq_refl).
Defined.

(** X16, the theorem at the first create on the loaded host. *)
Lemma first_create_after_entry_witness :
  exists ok t1,
    trace (DrvCreate consts host_ext plain_irp
                     (after_entry (repeat 0 16%nat) (world (loaded true))))
    = [EvLogInfo "Hyperdbg's hypervisor Started...";
       EvRtlZeroMemory 16;
       EvHvVmxInitialize (repeat 0 16%nat) ok] ++ t1.
Proof.
  eapply (first_create_after_entry consts host_ext host_loader
            fresh_driver_object) with (w := world (loaded true));
    [reflexivity | cbn; lia | cbn; lia | cbn; lia | reflexivity | reflexivity].
Defined.

(** X14, the theorem at a load with the pool exhausted. *)
Lemma DriverEntry_out_of_memory_witness :
  fst (DriverEntry consts host_ext starved_loader fresh_driver_object
                   (world (loaded true)))
  = Returned Wdm.STATUS_INSUFFICIENT_RESOURCES None fresh_driver_object None
             (world (loaded true)) /\
  List.filter is_LdIoCreateDevice
    (snd (DriverEntry consts host_ext starved_loader fresh_driver_object
                      (world (loaded true)))) = [].
Proof.
  split; [reflexivity|].
  edestruct (DriverEntry_out_of_memory consts host_ext starved_loader
               fresh_driver_object) with (w := world (loaded true))
    as (_ & _ & _ & H); [reflexivity | exact H].
Defined.

(** X15, the theorem at a load whose device creation fails. *)
Lemma DriverEntry_null_device_witness :
  exists g D' w',
    fst (DriverEntry consts host_ext failing_loader fresh_driver_object
                     (world (loaded true)))
    = NullDereference g D' w'.
Proof.
  apply (DriverEntry_null_device consts host_ext failing_loader
           fresh_driver_object (world (loaded true))).
  - cbn. discriminate.
  - reflexivity.
Defined.

End MoreOnTheHost.
